(** * renku-python: dataset commands and the Zenodo provider

    A shallow embedding of
    - [renku/cli/_providers/zenodo.py]  (record serializers, exporter, provider),
    - [renku/cli/zenodo.py]             (the older [Record] class),
    - [renku/cli/dataset.py]            (the [dataset] sub-commands),
    together with the properties the specification states about them.

    Python objects become records, exceptions become the left summand of a
    result, and code that talks to the network, the disk or the terminal runs
    in a state-and-exception monad whose state records what was done. *)

From Stdlib Require Import ZArith Ascii String List Sorted.
From stdpp Require Import gmap strings list fin_maps pretty.

Open Scope Z_scope.

(** ** Exceptions *)

(** The exceptions the modelled code raises, each with the argument it is
    raised with. *)
Inductive Exc : Type :=
| HTTPError (msg : string)           (* requests.HTTPError *)
| ConnectionError (msg : string)     (* requests.ConnectionError and the like *)
| LookupError (msg : string)
| KeyError (key : string)
| ValueError (msg : string)          (* response.json() on a body that is not JSON *)
| TypeError (msg : string)
| FileNotFoundError (path : string)
| UnboundLocalError (var : string)
| Abort                              (* click.Abort *)
| NonEmptyDatasetError (name : string).

Definition Result (A : Type) : Type := (Exc + A)%type.

(** ** A state-and-exception monad *)

Module M.

Definition t (S A : Type) : Type := S -> Result A * S.

Definition ret {S A} (a : A) : t S A := fun s => (inr a, s).

Definition bind {S A B} (m : t S A) (k : A -> t S B) : t S B :=
  fun s => match m s with
           | (inr a, s') => k a s'
           | (inl e, s') => (inl e, s')
           end.

Definition raise {S A} (e : Exc) : t S A := fun s => (inl e, s).

(** A pure computation that may raise. *)
Definition lift {S A} (r : Result A) : t S A := fun s => (r, s).

Definition get {S} : t S S := fun s => (inr s, s).

Definition modify {S} (f : S -> S) : t S unit := fun s => (inr tt, f s).

(** [try: body finally: cleanup], which is also what leaving a [with]
    block does: the cleanup runs whether or not the body raised. *)
Definition finally {S A} (body : t S A) (cleanup : S -> S) : t S A :=
  fun s => let (r, s') := body s in (r, cleanup s').

(** [for x in xs: body x] *)
Fixpoint for_each {S A} (xs : list A) (body : A -> t S unit) : t S unit :=
  match xs with
  | [] => ret tt
  | x :: xs' => bind (body x) (fun _ => for_each xs' body)
  end.

End M.

Notation "'let*' x := c 'in' k" := (M.bind c (fun x => k))
  (at level 10, x name, c at level 100, k at level 200).
Notation "c ;; k" := (M.bind c (fun _ => k))
  (at level 100, k at level 200, right associativity).

(** ** Strings *)

(** [sep.join(parts)] is [String.concat sep parts]; [s.split(sep)] for a
    one-character separator: *)
Fixpoint split (sep : ascii) (s : string) : list string :=
  match s with
  | EmptyString => [EmptyString]
  | String c s' =>
      if Ascii.eqb c sep then EmptyString :: split sep s'
      else match split sep s' with
           | [] => [String c EmptyString]
           | h :: t => String c h :: t
           end
  end.

(** [xs[-1]] on a list of strings known to be non-empty. *)
Definition last_item (xs : list string) : string := List.last xs EmptyString.

(** [needle in haystack] *)
Definition includes (needle haystack : string) : Prop :=
  exists pre post, haystack = pre +:+ needle +:+ post.

(** The double quote and the newline character. *)
Definition dquote : string := String "034"%char EmptyString.
Definition newline : string := String "010"%char EmptyString.

(** [str(n)] for an integer and for a length. *)
Definition str_int (n : Z) : string := pretty n.
Definition str_len (n : nat) : string := pretty n.

(** ['' if n == 1 else 's'] *)
Definition plural (n : nat) : string := if Nat.eqb n 1 then "" else "s".

(** ** Data model ([renku.models.datasets])

    The classes [Author], [DatasetFile] and [Dataset] are imported by the
    modelled files; the records below carry the attributes those files read
    or write. *)

Module Author.
Record t : Type := mk { name : string; affiliation : string }.
End Author.

(** [urllib.parse.ParseResult], represented by the URL it was parsed from:
    [urlparse(s).geturl()] gives [s] back. *)
Record ParseResult : Type := urlparse { geturl : string }.

Module DatasetFile.
(** Modelled from the spec: the class [DatasetFile] is not under src/.  The
    spec's FileRecord has a relative path, an origin URL, a checksum, a
    size, a file type, an added timestamp, an authorship attribution and
    the dataset's name; [id], [filename] and [full_path] are the further
    attributes the code passes or reads. *)
Record t : Type := mk {
  url : ParseResult;
  id : string;
  checksum : string;
  filename : string;
  filesize : Z;
  filetype : string;
  dataset : string;
  path : string;
  added : Z;
  authors : list Author.t;
  full_path : string
}.

(** [','.join(author.name for author in authors)] *)
Definition authors_csv (f : t) : string :=
  String.concat "," (map Author.name (authors f)).
End DatasetFile.

(** A dataset's [url] attribute is a string or, straight after
    deserialisation from JSON-LD, a dict. *)
Inductive Url : Type :=
| UrlStr (s : string)
| UrlDict (d : gmap string string).

Module Dataset.
(** Modelled from the spec: the class [Dataset] is not under src/.  The
    spec's ordered mapping from relative path to FileRecord is the list of
    its values in insertion order, each record being keyed by its [path]:
    [files.values()] is the list itself. *)
Record t : Type := mk {
  name : string;
  description : string;
  creator : list Author.t;
  files : list DatasetFile.t;
  url : Url
}.

Definition set_files (d : t) (fs : list DatasetFile.t) : t :=
  mk (name d) (description d) (creator d) fs (url d).

Definition set_url (d : t) (u : Url) : t :=
  mk (name d) (description d) (creator d) (files d) u.
End Dataset.

(** * The Zenodo provider ([renku/cli/_providers/zenodo.py]) *)

(** ** What travels over HTTP *)

(** One entry of a record's [files] list, as the registry sends it:
    [{id, checksum, links: {download}, filename, filesize}]. *)
Module FileEntry.
Record links_t : Type := mk_links { download : string }.
Record t : Type := mk {
  id : string;
  checksum : string;
  links : links_t;
  filename : string;
  filesize : Z
}.
End FileEntry.

(** One entry of the [errors] list of a 400 response. *)
Module ErrorEntry.
Record t : Type := mk { field : string; message : string }.
End ErrorEntry.

(** The JSON-LD document of a record, as far as [Dataset.from_jsonld] reads
    it. *)
Module Jsonld.
Record t : Type := mk {
  name : string;
  description : string;
  creator : list Author.t;
  url : Url
}.
End Jsonld.

(** The JSON object of a record ([GET /records/{id}]), as far as
    [ZenodoRecordSerializer] keeps it. *)
Module RecordData.
Record t : Type := mk {
  id : Z;
  doi : string;
  title : string;
  files : list FileEntry.t
}.
End RecordData.

(** The decoded body of a response: [response.json()]. *)
Inductive Json : Type :=
| JDeposition (id : Z)                      (* {'id': ..., ...} *)
| JErrors (errors : list ErrorEntry.t)      (* {'errors': [...], ...} *)
| JRecord (data : RecordData.t)
| JJsonld (doc : Jsonld.t)
| JOther.                                   (* any other JSON value *)

Module Response.
Record t : Type := mk {
  status_code : Z;
  content : string;
  body : option Json          (* [None]: the body is not JSON *)
}.

Definition json (r : t) : Result Json :=
  match body r with
  | Some j => inr j
  | None => inl (ValueError "Expecting value")
  end.
End Response.

(** [response['id']] and [err_response['errors']] *)
Definition getitem_id (j : Json) : Result Z :=
  match j with
  | JDeposition i => inr i
  | _ => inl (KeyError "id")
  end.

Definition getitem_errors (j : Json) : Result (list ErrorEntry.t) :=
  match j with
  | JErrors errs => inr errs
  | _ => inl (KeyError "errors")
  end.

Inductive Method : Type := GET | POST | PUT.

(** The metadata document [attach_metadata] sends. *)
Module Metadata.
Record creator_t : Type := mk_creator { name : string; affiliation : string }.
Record t : Type := mk {
  title : string;
  upload_type : string;
  description : string;
  creators : list creator_t
}.
End Metadata.

(** What a request carries besides its URL. *)
Inductive Payload : Type :=
| NoPayload
| JsonEmpty                                            (* json={} *)
| Multipart (data : list (string * string)) (file : string)
    (* data=..., files={'file': open(file, 'rb')} *)
| JsonData (metadata : Metadata.t).                    (* data=json.dumps({'metadata': ...}) *)

Module Request.
Record t : Type := mk {
  method : Method;
  url : string;
  params : list (string * string);
  headers : list (string * string);
  payload : Payload
}.
End Request.

(** What the code does to the outside world, in order. *)
Inductive Event : Type :=
| Call (rq : Request.t)       (* requests.get, requests.post, requests.put *)
| BarOpen (total : nat)       (* tqdm(total=...) *)
| BarUpdate (n : nat)         (* progressbar.update(n) *)
| BarClose.                   (* leaving the [with tqdm(...)] block *)

Definition requests_of (evs : list Event) : list Request.t :=
  omap (fun ev => match ev with Call rq => Some rq | _ => None end) evs.

(** ** [ZenodoFileSerializer] *)

Module ZenodoFileSerializer.
Record t : Type := mk {
  id : string;
  checksum : string;
  links : FileEntry.links_t;
  filename : string;
  filesize : Z
}.

(** The constructor applied to the entry's keys. *)
Definition of_dict (file_ : FileEntry.t) : t :=
  mk (FileEntry.id file_) (FileEntry.checksum file_) (FileEntry.links file_)
     (FileEntry.filename file_) (FileEntry.filesize file_).

Definition remote_url (self : t) : ParseResult :=
  urlparse (FileEntry.download (links self)).

(** The property [type]. *)
Definition type (self : t) : string :=
  last_item (split "." (filename self)).
End ZenodoFileSerializer.

(** ** [ZenodoExporter._check_or_raise] *)

(** The format string of the 400 branch, applied to one entry: the field
    and the message, each between double quotes. *)
Definition format_error (err : ErrorEntry.t) : string :=
  dquote +:+ ErrorEntry.field err +:+ dquote +:+ " failed with "
         +:+ dquote +:+ ErrorEntry.message err +:+ dquote.

(** Sequencing of pure computations that may raise. *)
Definition and_then {A B} (r : Result A) (k : A -> Result B) : Result B :=
  match r with
  | inr a => k a
  | inl e => inl e
  end.

Definition _check_or_raise (response : Response.t) : Result unit :=
  let status_code := Response.status_code response in
  if negb (bool_decide (status_code ∈ [200; 201; 202])) then
    if status_code =? 401 then
      inl (HTTPError "Access unauthorized - update access token.")
    else if status_code =? 400 then
      and_then (Response.json response) (fun err_response =>
      and_then (getitem_errors err_response) (fun errs =>
      let errors := map format_error errs in
      inl (HTTPError (newline +:+ String.concat newline errors))))
    else
      inl (HTTPError (Response.content response))
  else inr tt.

(** ** [ZenodoRecordSerializer] *)

Module ZenodoRecordSerializer.
Record t : Type := mk {
  _jsonld : option Json;
  id : Z;
  doi : string;
  title : string;
  files : list FileEntry.t;
  _uri : string
}.

(** The constructor applied to a decoded record and the looked-up URI;
    the provider it also receives is the one object of the [World] below. *)
Definition of_dict (data : RecordData.t) (uri : string) : t :=
  mk None (RecordData.id data) (RecordData.doi data) (RecordData.title data)
     (RecordData.files data) uri.

Definition set_jsonld (self : t) (j : Json) : t :=
  mk (Some j) (id self) (doi self) (title self) (files self) (_uri self).

Definition get_files (self : t) : Result (list ZenodoFileSerializer.t) :=
  if (length (files self) =? 0)%nat then
    inl (LookupError "no files have been found")
  else
    inr (map ZenodoFileSerializer.of_dict (files self)).
End ZenodoRecordSerializer.

(** * The older client ([renku/cli/zenodo.py]) *)

Module RecordFile.
(** One entry of [data['files']], as the records API sends it. *)
Record dict : Type := mk_dict {
  d_checksum : string;
  d_links : gmap string string;
  d_bucket : string;
  d_key : string;
  d_size : Z;
  d_type : string
}.

Record t : Type := mk {
  checksum : string;
  links : gmap string string;
  bucket : string;
  key : string;
  size : Z;
  type : string
}.

(** The constructor applied to the entry's keys. *)
Definition of_dict (file_ : dict) : t :=
  mk (d_checksum file_) (d_links file_) (d_bucket file_) (d_key file_)
     (d_size file_) (d_type file_).
End RecordFile.

Module Record.
(** [data] is the decoded record, of which [get_files] reads the
    ['files'] entry. *)
Record t : Type := mk {
  base_url : string;
  data_files : list RecordFile.dict
}.

Definition get_files (self : t) : Result (list RecordFile.t) :=
  if (length (data_files self) =? 0)%nat then
    inl (LookupError "no files have been found")
  else
    inr (map RecordFile.of_dict (data_files self)).
End Record.

(** * The Zenodo provider, continued: talking to the registry *)

(** What the code cannot decide by itself. *)
Module Env.
Record t : Type := mk {
  (** the registry: its reply to a request, given all that happened before *)
  server : list Event -> Request.t -> Result Response.t;
  (** the paths [open(path, 'rb')] finds *)
  readable : gset string;
  (** ['ZENODO_USE_SANDBOX' in os.environ] *)
  use_sandbox : bool;
  (** [urlparse(uri).path] *)
  url_path : string -> string;
  (** [DOIProvider().find_record(doi).url] *)
  resolve_doi : string -> Result string;
  (** the attribute values of a [DatasetFile] built without arguments *)
  file_defaults : DatasetFile.t
}.
End Env.

(** The provider object, whose [_accept] attribute is assigned to, and the
    log of what was done. *)
Module World.
Record t : Type := mk { _accept : string; trace : list Event }.

Definition log (ev : Event) (w : t) : t := mk (_accept w) (trace w ++ [ev]).
Definition set_accept (a : string) (w : t) : t := mk a (trace w).
End World.

(** [requests.get], [requests.post], [requests.put]: the call is logged
    and the registry replies; a failed connection raises. *)
Definition send (env : Env.t) (rq : Request.t) : M.t World.t Response.t :=
  fun w => (Env.server env (World.trace w) rq, World.log (Call rq) w).

(** [open(filepath, 'rb')]; the handle is represented by the path. *)
Definition open_rb (env : Env.t) (filepath : string) : M.t World.t string :=
  if bool_decide (filepath ∈ Env.readable env) then M.ret filepath
  else M.raise (FileNotFoundError filepath).

(** [Path(filepath).name]: the last component of the path. *)
Definition Path_name (filepath : string) : string :=
  last_item (filter (fun part => part <> "") (split "/" filepath)).

(** [template.format(arg)] for a template whose only replacement field is
    [{0}]. *)
Fixpoint format0 (template arg : string) : string :=
  match template with
  | String "{" (String "0" (String "}" rest)) => arg +:+ format0 rest arg
  | String c rest => String c (format0 rest arg)
  | EmptyString => EmptyString
  end.

Definition ZENODO_BASE_URL : string := "https://zenodo.org".
Definition ZENODO_BASE_PATH : string := "api".

(** [urljoin(ZENODO_BASE_URL, posixpath.join(ZENODO_BASE_PATH, 'records',
    record_id))], for a [record_id] without a slash, which is what
    [ZenodoProvider.record_id] returns. *)
Definition make_records_url (record_id : string) : string :=
  ZENODO_BASE_URL +:+ "/" +:+ ZENODO_BASE_PATH +:+ "/" +:+ "records" +:+ "/"
                  +:+ record_id.

Module ZenodoProvider.

Definition record_id (env : Env.t) (uri : string) : string :=
  last_item (split "/" (Env.url_path env uri)).

Definition accept_json : M.t World.t unit :=
  M.modify (World.set_accept "application/json").

Definition accept_jsonld : M.t World.t unit :=
  M.modify (World.set_accept "application/ld+json").

(** The request of [make_request]. *)
Definition records_request (env : Env.t) (accept uri : string) : Request.t :=
  let record_id := record_id env uri in
  Request.mk GET (make_records_url record_id) [] [("Accept", accept)] NoPayload.

Definition make_request (env : Env.t) (uri : string)
  : M.t World.t Response.t :=
  let* self := M.get in
  let* response := send env (records_request env (World._accept self) uri) in
  if negb (Response.status_code response =? 200) then
    M.raise (LookupError "record not found")
  else M.ret response.

(** The record is built from the keys of the decoded body, the provider
    and the URI; a body that is not a record has keys the constructor
    does not accept. *)
Definition get_record (env : Env.t) (uri : string)
  : M.t World.t ZenodoRecordSerializer.t :=
  let* response := make_request env uri in
  let* data := M.lift (Response.json response) in
  match data with
  | JRecord data => M.ret (ZenodoRecordSerializer.of_dict data uri)
  | _ => M.raise (TypeError "__init__() got an unexpected keyword argument")
  end.

Definition find_record_by_doi (env : Env.t) (doi : string)
  : M.t World.t ZenodoRecordSerializer.t :=
  let* doi_url := M.lift (Env.resolve_doi env doi) in
  get_record env (record_id env doi_url).

Definition find_record (env : Env.t) (is_doi : bool) (uri : string)
  : M.t World.t ZenodoRecordSerializer.t :=
  if is_doi then find_record_by_doi env uri else get_record env uri.

End ZenodoProvider.

(** Modelled from the spec: [Dataset.from_jsonld] is not under src/.  The
    spec has the record's metadata (creators, title, description) mapped to
    the dataset's metadata and author list; the new dataset has no files
    yet.  A document that is not JSON-LD of a dataset is refused. *)
Definition Dataset_from_jsonld (metadata : Json) : Result Dataset.t :=
  match metadata with
  | JJsonld doc =>
      inr (Dataset.mk (Jsonld.name doc) (Jsonld.description doc)
             (Jsonld.creator doc) [] (Jsonld.url doc))
  | _ => inl (ValueError "not a dataset document")
  end.

(** [ZenodoRecordSerializer.get_jsonld] and [as_dataset]; they are methods
    of the record but use the provider's [make_request]. *)
Module Serializer.
Import ZenodoRecordSerializer.

(** Returns the record, now holding the document, and the document. *)
Definition get_jsonld (env : Env.t) (self : t) : M.t World.t (t * Json) :=
  ZenodoProvider.accept_jsonld ;;
  let* response := ZenodoProvider.make_request env (_uri self) in
  let* jsonld := M.lift (Response.json response) in
  M.ret (set_jsonld self jsonld, jsonld).

(** The [DatasetFile] built in the loop of [as_dataset]; [added],
    [authors] and [full_path] are not passed. *)
Definition dataset_file (env : Env.t) (dataset_name : string)
    (file_ : ZenodoFileSerializer.t) : DatasetFile.t :=
  let remote_ := ZenodoFileSerializer.remote_url file_ in
  DatasetFile.mk
    remote_
    (ZenodoFileSerializer.id file_)
    (ZenodoFileSerializer.checksum file_)
    (ZenodoFileSerializer.filename file_)
    (ZenodoFileSerializer.filesize file_)
    (ZenodoFileSerializer.type file_)
    dataset_name
    ""
    (DatasetFile.added (Env.file_defaults env))
    (DatasetFile.authors (Env.file_defaults env))
    (DatasetFile.full_path (Env.file_defaults env)).

(** [if isinstance(dataset.url, dict) and '_id' in dataset.url: ...] *)
Definition normalize_url (u : Url) : Url :=
  match u with
  | UrlDict d =>
      match d !! "_id" with
      | Some _id => UrlStr (geturl (urlparse _id))
      | None => u
      end
  | UrlStr _ => u
  end.

Definition as_dataset (env : Env.t) (self : t) : M.t World.t Dataset.t :=
  let* files := M.lift (get_files self) in
  let* self_metadata := get_jsonld env self in
  let '(self, metadata) := self_metadata in
  let* dataset := M.lift (Dataset_from_jsonld metadata) in
  let serialized_files := map (dataset_file env (Dataset.name dataset)) files in
  let dataset := Dataset.set_files dataset serialized_files in
  let dataset := Dataset.set_url dataset (normalize_url (Dataset.url dataset)) in
  M.ret dataset.
End Serializer.

(** ** [ZenodoExporter] *)

Module ZenodoExporter.

Record t : Type := mk { dataset : Dataset.t; secret : string }.

Definition ZENODO_BASE_URL : string := "https://zenodo.org/".
Definition ZENODO_SANDBOX_URL : string := "https://sandbox.zenodo.org/".
Definition API_PATH : string := "api/".
Definition DEPOSIT_PATH : string := "deposit/".
Definition PUBLISH_PATH : string := "record/".
Definition PUBLISH_ACTION_PATH : string := "depositions/{0}/actions/publish".
Definition METADATA_URL : string := "depositions/{0}".
Definition FILES_URL : string := "depositions/{0}/files".
Definition NEW_DEPOSIT_URL : string := "depositions".
Definition HEADERS : list (string * string) :=
  [("Content-Type", "application/json")].

Definition zenodo_url (env : Env.t) : string :=
  if Env.use_sandbox env then ZENODO_SANDBOX_URL else ZENODO_BASE_URL.

Definition publish_url (env : Env.t) (deposition_id : Z) : ParseResult :=
  urlparse (format0 (zenodo_url env +:+ API_PATH +:+ DEPOSIT_PATH
                       +:+ PUBLISH_ACTION_PATH) (str_int deposition_id)).

Definition attach_metadata_url (env : Env.t) (deposition_id : Z) : ParseResult :=
  urlparse (format0 (zenodo_url env +:+ API_PATH +:+ DEPOSIT_PATH
                       +:+ METADATA_URL) (str_int deposition_id)).

Definition upload_file_url (env : Env.t) (deposition_id : Z) : ParseResult :=
  urlparse (format0 (zenodo_url env +:+ API_PATH +:+ DEPOSIT_PATH
                       +:+ FILES_URL) (str_int deposition_id)).

Definition new_deposit_url (env : Env.t) : ParseResult :=
  urlparse (zenodo_url env +:+ API_PATH +:+ DEPOSIT_PATH +:+ NEW_DEPOSIT_URL).

Definition published_at (env : Env.t) (deposition_id : Z) : ParseResult :=
  urlparse (zenodo_url env +:+ PUBLISH_PATH +:+ str_int deposition_id).

Definition deposit_at (env : Env.t) (deposition_id : Z) : ParseResult :=
  urlparse (zenodo_url env +:+ DEPOSIT_PATH +:+ str_int deposition_id).

Definition default_params (self : t) : list (string * string) :=
  [("access_token", secret self)].

(** The requests of the four steps. *)
Definition new_deposition_request (env : Env.t) (self : t) : Request.t :=
  Request.mk POST (geturl (new_deposit_url env)) (default_params self)
    HEADERS JsonEmpty.

Definition upload_file_request (env : Env.t) (self : t)
    (deposition_id : Z) (filepath file : string) : Request.t :=
  let request_payload := [("filename", Path_name filepath)] in
  Request.mk POST (geturl (upload_file_url env deposition_id))
    (default_params self) [] (Multipart request_payload file).

Definition metadata_payload (dataset : Dataset.t) : Metadata.t :=
  Metadata.mk (Dataset.name dataset) "dataset" (Dataset.description dataset)
    (map (fun creator =>
            Metadata.mk_creator (Author.name creator)
              (Author.affiliation creator))
       (Dataset.creator dataset)).

Definition attach_metadata_request (env : Env.t) (self : t)
    (deposition_id : Z) (dataset : Dataset.t) : Request.t :=
  Request.mk PUT (geturl (attach_metadata_url env deposition_id))
    (default_params self) HEADERS (JsonData (metadata_payload dataset)).

Definition publish_request (env : Env.t) (self : t) (deposition_id : Z)
  : Request.t :=
  Request.mk POST (geturl (publish_url env deposition_id))
    (default_params self) [] NoPayload.

Definition new_deposition (env : Env.t) (self : t) : M.t World.t Response.t :=
  send env (new_deposition_request env self).

Definition upload_file (env : Env.t) (self : t) (deposition_id : Z)
    (filepath : string) : M.t World.t Response.t :=
  let* file := open_rb env filepath in
  send env (upload_file_request env self deposition_id filepath file).

Definition attach_metadata (env : Env.t) (self : t) (deposition_id : Z)
    (dataset : Dataset.t) : M.t World.t Response.t :=
  send env (attach_metadata_request env self deposition_id dataset).

Definition publish_deposition (env : Env.t) (self : t) (deposition_id : Z)
    (secret : string) : M.t World.t Response.t :=
  send env (publish_request env self deposition_id).

(** Step 2 of [export]: the loop under the progress bar. *)
Definition upload_all (env : Env.t) (self : t) (deposition_id : Z)
  : M.t World.t unit :=
  let files := Dataset.files (dataset self) in
  M.finally
    (M.modify (World.log (BarOpen (length files))) ;;
     M.for_each files (fun file_ =>
       let* response :=
         upload_file env self deposition_id (DatasetFile.full_path file_) in
       M.lift (_check_or_raise response) ;;
       M.modify (World.log (BarUpdate 1))))
    (World.log BarClose).

Definition export (env : Env.t) (self : t) (to_publish : bool)
  : M.t World.t ParseResult :=
  (* Step 1. Create new deposition *)
  let* response := new_deposition env self in
  M.lift (_check_or_raise response) ;;
  let* response := M.lift (Response.json response) in
  let* deposition_id := M.lift (getitem_id response) in
  (* Step 2. Upload all files to created deposition *)
  upload_all env self deposition_id ;;
  (* Step 3. Attach metadata to deposition *)
  let* response := attach_metadata env self deposition_id (dataset self) in
  M.lift (_check_or_raise response) ;;
  (* Step 4. Publish newly created deposition *)
  if to_publish then
    let* response := publish_deposition env self deposition_id (secret self) in
    M.lift (_check_or_raise response) ;;
    M.ret (published_at env deposition_id)
  else
    M.ret (deposit_at env deposition_id).

End ZenodoExporter.

(** * The dataset commands ([renku/cli/dataset.py]) *)

(** One line of the file listing: the attributes [added], [authors_csv]
    and [file] of a record. *)
Module Row.
Record t : Type := mk { added : Z; authors : string; file : string }.
End Row.

(** What a command writes to, or asks on, the terminal. *)
Inductive Output : Type :=
| Echo (text : string)                                  (* click.echo, click.secho *)
| EchoTable (headers : list string) (rows : list Row.t) (* click.echo(tabulate(...)) *)
| Confirm (prompt : string)                             (* click.confirm *)
| ProgressBar (label : string) (total : nat).           (* progressbar(items, label=...) *)

(** The local client: the datasets it has stored, the files on disk, and
    the terminal. *)
Module Client.
Record t : Type := mk {
  datasets : gmap string Dataset.t;
  disk : gset string;
  stdout : list Output
}.

Definition set_datasets (c : t) (ds : gmap string Dataset.t) : t :=
  mk ds (disk c) (stdout c).
Definition set_disk (c : t) (d : gset string) : t :=
  mk (datasets c) d (stdout c).
Definition write (o : Output) (c : t) : t :=
  mk (datasets c) (disk c) (stdout c ++ [o]).
End Client.

(** Inside [with client.with_dataset(name=name) as dataset]: the dataset
    object the block works on, and the client. *)
Module Scope.
Record t : Type := mk { dataset : Dataset.t; client : Client.t }.

Definition on_client (f : Client.t -> Client.t) (sc : t) : t :=
  mk (dataset sc) (f (client sc)).
Definition on_dataset (f : Dataset.t -> Dataset.t) (sc : t) : t :=
  mk (f (dataset sc)) (client sc).
End Scope.

(** What the commands cannot decide by themselves. *)
Module CliEnv.
Record t : Type := mk {
  (** whether a path matches a glob pattern *)
  glob_match : string -> string -> bool;
  (** the user's answer to [click.confirm(text)] *)
  answer : string -> bool;
  (** the constant [WARNING] of [renku.cli._echo] *)
  WARNING : string;
  (** the attribute values of a [Dataset] and of a [DatasetFile] built
      without arguments *)
  dataset_defaults : Dataset.t;
  file_defaults : DatasetFile.t
}.
End CliEnv.

(** A concrete matcher in the style of [fnmatch]: [*] matches any run of
    characters, [?] any one character. *)
Fixpoint fnmatch (pattern : string) : string -> bool :=
  match pattern with
  | EmptyString => fun s => bool_decide (s = EmptyString)
  | String "*" pattern' =>
      fix star (s : string) : bool :=
        fnmatch pattern' s
        || match s with
           | EmptyString => false
           | String _ s' => star s'
           end
  | String "?" pattern' =>
      fun s => match s with
               | EmptyString => false
               | String _ s' => fnmatch pattern' s'
               end
  | String c pattern' =>
      fun s => match s with
               | EmptyString => false
               | String d s' => Ascii.eqb c d && fnmatch pattern' s'
               end
  end.

Module Cli.

Definition echo (text : string) : M.t Scope.t unit :=
  M.modify (Scope.on_client (Client.write (Echo text))).

Definition the_dataset : M.t Scope.t Dataset.t :=
  fun sc => (inr (Scope.dataset sc), sc).

(** [Dataset(name=name)] *)
Definition new_dataset (env : CliEnv.t) (name : string) : Dataset.t :=
  let d := CliEnv.dataset_defaults env in
  Dataset.mk name (Dataset.description d) (Dataset.creator d) [] (Dataset.url d).

(** [DatasetFile(path=file, dataset=dataset.name)] *)
Definition new_file (env : CliEnv.t) (path dataset : string) : DatasetFile.t :=
  let f := CliEnv.file_defaults env in
  DatasetFile.mk (DatasetFile.url f) (DatasetFile.id f) (DatasetFile.checksum f)
    (DatasetFile.filename f) (DatasetFile.filesize f) (DatasetFile.filetype f)
    dataset path (DatasetFile.added f) (DatasetFile.authors f)
    (DatasetFile.full_path f).

(** Modelled from the spec: [client.with_dataset] is not under src/.  The
    spec has it open the dataset, run the block, persist on normal exit and
    leave the store untouched on error; no dataset comes back from
    [deleted], so a dataset whose entry the block removed is not written
    back.  The [create] command relies on it to make a dataset that does
    not exist yet. *)
Definition with_dataset {A} (env : CliEnv.t) (name : string)
    (block : M.t Scope.t A) : M.t Client.t A :=
  fun c =>
    let stored := Client.datasets c in
    let dataset := default (new_dataset env name) (stored !! name) in
    let c0 := Client.set_datasets c (<[name := dataset]> stored) in
    match block (Scope.mk dataset c0) with
    | (inr a, sc) =>
        let c1 := Scope.client sc in
        (inr a,
         Client.set_datasets c1
           (alter (fun _ => Scope.dataset sc) name (Client.datasets c1)))
    | (inl e, sc) => (inl e, Client.set_datasets (Scope.client sc) stored)
    end.

(** Modelled from the spec: [client.delete_dataset] is not under src/.
    The spec has delete remove the dataset entry and, if files exist and
    force is not given, refuse with [NonEmptyDatasetError]. *)
Definition delete_dataset (dataset : Dataset.t) (force : bool)
  : M.t Scope.t unit :=
  if negb force && negb (bool_decide (Dataset.files dataset = [])) then
    M.raise (NonEmptyDatasetError (Dataset.name dataset))
  else
    M.modify (Scope.on_client (fun c =>
      Client.set_datasets c (delete (Dataset.name dataset) (Client.datasets c)))).

(** Modelled from the spec: [client.files_to_unlink] is not under src/.
    The spec has the glob resolved against the current file index and the
    matched set returned. *)
Definition files_to_unlink (env : CliEnv.t) (dataset : Dataset.t)
    (glob : string) : list string :=
  map DatasetFile.path
    (filter (fun f => CliEnv.glob_match env glob (DatasetFile.path f) = true)
       (Dataset.files dataset)).

(** Modelled from the spec: [Dataset.remove_file] is not under src/.  The
    spec has each match removed from the index, whose records are keyed by
    their path. *)
Definition remove_file (file : DatasetFile.t) : M.t Scope.t unit :=
  M.modify (Scope.on_dataset (fun d =>
    Dataset.set_files d
      (filter (fun f => DatasetFile.path f <> DatasetFile.path file)
         (Dataset.files d)))).

(** [Path(file).unlink()] *)
Definition Path_unlink (file : string) : M.t Scope.t unit :=
  fun sc =>
    if bool_decide (file ∈ Client.disk (Scope.client sc)) then
      (inr tt,
       Scope.on_client (fun c => Client.set_disk c (Client.disk c ∖ {[file]})) sc)
    else (inl (FileNotFoundError file), sc).

(** [tabulate(collection, headers)] with the headers of [ls_files].
    Modelled from the spec: [renku.models._tabulate] is not under src/.
    The listing has one row per element of the collection, in the
    collection's order, with one cell per header. *)
Definition tabulate (collection : list DatasetFile.t) : list Row.t :=
  map (fun f => Row.mk (DatasetFile.added f) (DatasetFile.authors_csv f)
                  (DatasetFile.path f))
    collection.

Definition ls_files_headers : list string := ["added"; "authors"; "file"].

Definition ls_files (env : CliEnv.t) (name : string) : M.t Client.t unit :=
  with_dataset env name
    (let* dataset := the_dataset in
     let output := tabulate (Dataset.files dataset) in
     M.modify (Scope.on_client (Client.write (EchoTable ls_files_headers output)))).

(** The text [delete_confirm_prompt] formats. *)
Definition prompt_text (files_to_unlink : list string) (dataset_name : string)
  : string :=
  "You are about to delete " +:+ str_len (length files_to_unlink)
    +:+ " file" +:+ plural (length files_to_unlink)
    +:+ " from " +:+ dataset_name +:+ " dataset." +:+ newline +:+ newline
    +:+ "Do you wish to proceed?".

(** [click.confirm(text)]: the question is shown and the user answers. *)
Definition confirm (env : CliEnv.t) (text : string) : M.t Scope.t bool :=
  M.modify (Scope.on_client (Client.write (Confirm text))) ;;
  M.ret (CliEnv.answer env text).

Definition delete_confirm_prompt (env : CliEnv.t)
    (files_to_unlink : list string) (dataset_name : string)
  : M.t Scope.t bool :=
  let prompt_text := prompt_text files_to_unlink dataset_name in
  confirm env (CliEnv.WARNING env +:+ prompt_text).

Definition unlink_files (env : CliEnv.t) (yes : bool) (glob : string)
    (prompt : option (list string -> string -> M.t Scope.t bool))
  : M.t Scope.t (list string) :=
  let* dataset := the_dataset in
  let files_to_unlink := files_to_unlink env dataset glob in
  let* declined :=
    match prompt with
    | Some prompt =>
        if negb yes then
          let* proceed := prompt files_to_unlink (Dataset.name dataset) in
          M.ret (negb proceed)
        else M.ret false
    | None => M.ret false
    end in
  if declined then M.raise Abort
  else
    M.for_each files_to_unlink (fun file =>
      let relative_to_datadir := new_file env file (Dataset.name dataset) in
      remove_file relative_to_datadir) ;;
    let label := "Removing files from dataset" in
    M.modify (Scope.on_client
                (Client.write (ProgressBar label (length files_to_unlink)))) ;;
    M.for_each files_to_unlink Path_unlink ;;
    M.ret files_to_unlink.

Definition deleted_message (unlinked : list string) : string :=
  newline +:+ "Deleted " +:+ str_len (length unlinked) +:+ " file"
          +:+ plural (length unlinked) +:+ ".".

(** The local variable [unlinked] of [delete] is bound only in one branch:
    [None] is the unbound variable. *)
Definition delete (env : CliEnv.t) (name : string) (force verbose : bool)
  : M.t Client.t unit :=
  with_dataset env name
    (let* dataset := the_dataset in
     delete_dataset dataset force ;;
     let* dataset := the_dataset in
     let* unlinked :=
       if negb (bool_decide (Dataset.files dataset = [])) then
         let* unlinked := unlink_files env true "*" None in
         M.ret (Some unlinked)
       else M.ret None in
     echo "OK" ;;
     if verbose then
       match unlinked with
       | None => M.raise (UnboundLocalError "unlinked")
       | Some unlinked =>
           if (0 <? length unlinked)%nat then echo (deleted_message unlinked)
           else echo "No files to delete."
       end
     else M.ret tt).

Definition unlink (env : CliEnv.t) (yes verbose : bool) (name pattern : string)
  : M.t Client.t unit :=
  with_dataset env name
    (let* unlinked :=
       unlink_files env yes pattern (Some (delete_confirm_prompt env)) in
     echo "OK" ;;
     if verbose then
       echo (deleted_message unlinked) ;;
       M.for_each unlinked echo
     else M.ret tt).

End Cli.

(** * What the specification speaks of *)

(** A reply is a failure when the connection failed or when
    [_check_or_raise] refuses the response; the exception is the one the
    caller then sees. *)
Definition failure (reply : Result Response.t) : option Exc :=
  match reply with
  | inl e => Some e
  | inr response =>
      match _check_or_raise response with
      | inl e => Some e
      | inr _ => None
      end
  end.

(** The registry answered, and with one of the status codes that
    [_check_or_raise] lets through. *)
Definition accepted (reply : Result Response.t) : Prop :=
  exists response,
    reply = inr response /\ Response.status_code response ∈ [200; 201; 202].

(** The exception of a result, if it is one. *)
Definition error_of {A} (res : Result A) : option Exc :=
  match res with
  | inl e => Some e
  | inr _ => None
  end.

(** Along the events [evs] that follow the history [tr0], no reply was a
    failure. *)
Fixpoint all_accepted (env : Env.t) (tr0 evs : list Event) : Prop :=
  match evs with
  | [] => True
  | ev :: rest =>
      match ev with
      | Call rq => failure (Env.server env tr0 rq) = None
      | _ => True
      end
      /\ all_accepted env (tr0 ++ [ev]) rest
  end.

(** Along the events [evs] that follow the history [tr0], the first reply
    that is a failure is the outcome [res], and no request follows it. *)
Fixpoint stops_at_failure (env : Env.t) (tr0 evs : list Event)
    (res : option Exc) : Prop :=
  match evs with
  | [] => True
  | ev :: rest =>
      match ev with
      | Call rq =>
          match failure (Env.server env tr0 rq) with
          | Some e => res = Some e /\ requests_of rest = []
          | None => stops_at_failure env (tr0 ++ [ev]) rest res
          end
      | _ => stops_at_failure env (tr0 ++ [ev]) rest res
      end
  end.

(** A run from [w] with outcome [out] follows the request sequence
    [expected]: it sent a prefix of it, all of it if it did not raise,
    and it stopped at the first failure. *)
Definition follows (env : Env.t) {A} (w : World.t) (out : Result A * World.t)
    (expected : list Request.t) : Prop :=
  exists evs,
    World.trace (snd out) = World.trace w ++ evs
    /\ requests_of evs `prefix_of` expected
    /\ stops_at_failure env (World.trace w) evs (error_of (fst out))
    /\ (error_of (fst out) = None ->
        all_accepted env (World.trace w) evs /\ requests_of evs = expected).

(** The events of one uploaded file, and the events and the requests of a whole
    export into deposition [deposition_id]. *)
Definition upload_events (env : Env.t) (self : ZenodoExporter.t)
    (deposition_id : Z) (file_ : DatasetFile.t) : list Event :=
  let filepath := DatasetFile.full_path file_ in
  [Call (ZenodoExporter.upload_file_request env self deposition_id filepath filepath);
   BarUpdate 1].

Definition export_events (env : Env.t) (self : ZenodoExporter.t)
    (to_publish : bool) (deposition_id : Z) : list Event :=
  let dataset := ZenodoExporter.dataset self in
  let files := Dataset.files dataset in
  [Call (ZenodoExporter.new_deposition_request env self)]
  ++ [BarOpen (length files)]
  ++ concat (map (upload_events env self deposition_id) files)
  ++ [BarClose]
  ++ [Call (ZenodoExporter.attach_metadata_request env self deposition_id dataset)]
  ++ (if to_publish
      then [Call (ZenodoExporter.publish_request env self deposition_id)]
      else []).

Definition export_requests (env : Env.t) (self : ZenodoExporter.t)
    (to_publish : bool) (deposition_id : Z) : list Request.t :=
  requests_of (export_events env self to_publish deposition_id).

(** "Every failed request is sent again": in the events [evs] that follow
    the history [tr0], each request whose reply was a failure occurs once
    more later on. *)
Definition retries_failures (env : Env.t) (tr0 evs : list Event) : Prop :=
  forall pre rq rest,
    evs = pre ++ Call rq :: rest ->
    failure (Env.server env (tr0 ++ pre) rq) <> None ->
    rq ∈ requests_of rest.



(** * Examples *)

Module Example.

Definition file_defaults : DatasetFile.t :=
  DatasetFile.mk (urlparse "") "" "" "" 0 "" "" "" 0 [] "".

Definition ada : Author.t := Author.mk "Ada" "EPFL".

Definition doc : Jsonld.t :=
  Jsonld.mk "Weather data" "Hourly readings" [ada]
    (UrlStr "https://zenodo.org/record/42").

Definition record_data : RecordData.t :=
  RecordData.mk 42 "10.5281/zenodo.42" "Weather data" [].

(** A registry that accepts everything: a lookup gets the JSON-LD
    document, any other request the deposition 7. *)
Definition friendly (tr : list Event) (rq : Request.t) : Result Response.t :=
  match Request.method rq with
  | GET => inr (Response.mk 200 "" (Some (JJsonld doc)))
  | _ => inr (Response.mk 201 "" (Some (JDeposition 7)))
  end.

(** A registry that answers a lookup with 202 Accepted. *)
Definition slow (tr : list Event) (rq : Request.t) : Result Response.t :=
  inr (Response.mk 202 "" (Some (JRecord record_data))).

(** A registry whose first answer to an upload is a 500, and which
    accepts everything else, a second upload included. *)
Definition is_upload (rq : Request.t) : bool :=
  match Request.payload rq with
  | Multipart _ _ => true
  | _ => false
  end.

Definition flaky (tr : list Event) (rq : Request.t) : Result Response.t :=
  if is_upload rq && negb (existsb is_upload (requests_of tr)) then
    inr (Response.mk 500 "Internal Server Error" None)
  else friendly tr rq.

Definition env_of (server : list Event -> Request.t -> Result Response.t)
  : Env.t :=
  Env.mk server {["/repo/data/ds/a.txt"]} false (fun uri => uri)
    (fun doi => inr doi) file_defaults.

Definition env : Env.t := env_of friendly.

Definition world : World.t := World.mk "application/json" [].

Definition a_txt : DatasetFile.t :=
  DatasetFile.mk (urlparse "") "" "" "a.txt" 3 "txt" "ds" "a.txt" 1 [ada]
    "/repo/data/ds/a.txt".

Definition dataset : Dataset.t :=
  Dataset.mk "ds" "Hourly readings" [ada] [a_txt] (UrlStr "").

Definition exporter : ZenodoExporter.t := ZenodoExporter.mk dataset "token".

Definition remote_file : FileEntry.t :=
  FileEntry.mk "f-1" "md5:0cc1" (FileEntry.mk_links "https://zenodo.org/api/files/b/a.csv")
    "a.csv" 10.

Definition record (files : list FileEntry.t) : ZenodoRecordSerializer.t :=
  ZenodoRecordSerializer.mk None 42 "10.5281/zenodo.42" "Weather data" files
    "https://zenodo.org/record/42".

Definition old_record_file : RecordFile.dict :=
  RecordFile.mk_dict "md5:0cc1" ∅ "b" "a.csv" 10 "csv".

(** The scenario of the spec: a dataset [ds] with [a.txt], [dir/x] and
    [dir/y], added in this order. *)
Definition file (path : string) (added : Z) : DatasetFile.t :=
  DatasetFile.mk (urlparse "") "" "" path 1 "" "ds" path added [ada] path.

Definition ds : Dataset.t :=
  Dataset.mk "ds" "" [ada] [file "a.txt" 1; file "dir/x" 2; file "dir/y" 3]
    (UrlStr "").

Definition empty_ds : Dataset.t := Dataset.mk "empty" "" [ada] [] (UrlStr "").

(** A user who answers [answer] to every question. *)
Definition cli_env (answer : bool) : CliEnv.t :=
  CliEnv.mk fnmatch (fun _ => answer) "Warning: "
    (Dataset.mk "" "" [] [] (UrlStr "")) file_defaults.

Definition client : Client.t :=
  Client.mk {["ds" := ds; "empty" := empty_ds]} {["a.txt"; "dir/x"; "dir/y"]} [].

End Example.

(** * Further code and notions *)

(** [c in s] for a character [c]. *)
Fixpoint occurs (c : ascii) (s : string) : bool :=
  match s with
  | EmptyString => false
  | String d s' => Ascii.eqb c d || occurs c s'
  end.

(** [s.replace(old, new)] for one-character [old] and [new]. *)
Fixpoint replace_char (old new : ascii) (s : string) : string :=
  match s with
  | EmptyString => EmptyString
  | String c s' =>
      String (if Ascii.eqb c old then new else c) (replace_char old new s')
  end.

(** The progress events among [evs]: all that is not a request. *)
Definition is_call (ev : Event) : bool :=
  match ev with
  | Call _ => true
  | _ => false
  end.

Definition bar_events (evs : list Event) : list Event :=
  filter (fun ev => is_call ev = false) evs.

(** What happened between the worlds [w] and [w']: the events of [w'] that
    [w] does not have yet. *)
Definition events_since (w w' : World.t) : list Event :=
  drop (length (World.trace w)) (World.trace w').

(** ** The client of [renku/cli/zenodo.py] *)

Definition BASE_URL : string := "https://zenodo.org/api/".

(** What a search answers: [requests.get(url).json()]. *)
Inductive SearchJson : Type :=
| Hits (hits : list (list RecordFile.dict))  (* {'hits': {'hits': [...]}}, each hit
                                                kept as far as [Record] reads it *)
| NoHits.                                    (* JSON without ['hits']['hits'] *)

Module SearchEnv.
Record t : Type := mk {
  (** the answer to a GET of a URL, given the URLs requested before; a failed
      connection or a body that is not JSON raises *)
  get_json : list string -> string -> Result SearchJson;
  (** [urllib.parse.urlencode(params)] *)
  urlencode : list (string * string) -> string;
  (** [repr(s)] of a [str] *)
  repr : string -> string
}.
End SearchEnv.

Module Zenodo.

Record t : Type := mk { base_url : string; _api_key : string }.

(** [str(params)] for [params = {'q': q}]. *)
Definition str_params (env : SearchEnv.t) (q : string) : string :=
  "{" +:+ SearchEnv.repr env "q" +:+ ": " +:+ SearchEnv.repr env q +:+ "}".

(** The URL [_get_records] asks for. *)
Definition records_url (env : SearchEnv.t) (self : t)
    (params : list (string * string)) : string :=
  base_url self +:+ "records?" +:+ SearchEnv.urlencode env params.

(** The state is the list of the URLs requested so far. *)
Definition _get_records (env : SearchEnv.t) (self : t)
    (params : list (string * string)) : M.t (list string) (list Record.t) :=
  let url := records_url env self params in
  fun requested =>
    (and_then (SearchEnv.get_json env requested url) (fun json =>
       match json with
       | Hits hits => inr (map (fun hit => Record.mk BASE_URL hit) hits)
       | NoHits => inl (KeyError "hits")
       end),
     requested ++ [url]).

Definition search (env : SearchEnv.t) (self : t) (search : string)
  : M.t (list string) (list Record.t) :=
  let search := replace_char "/" " " search in
  let params := [("q", search)] in
  let* recs := _get_records env self params in
  if bool_decide (recs = []) then
    M.raise (LookupError ("No records found for search " +:+ search))
  else M.ret recs.

Definition find_record_by_doi (env : SearchEnv.t) (self : t) (doi : string)
  : M.t (list string) Record.t :=
  let q := "conceptdoi:" +:+ replace_char "/" "*" doi in
  let* records := _get_records env self [("q", q)] in
  match records with
  | record :: _ => M.ret record
  | [] =>
      let q := "doi:" +:+ replace_char "/" "*" doi in
      let* records := _get_records env self [("q", q)] in
      match records with
      | [] => M.raise (LookupError ("No records found with " +:+ str_params env q))
      | record :: _ => M.ret record
      end
  end.

End Zenodo.

(** ** Further examples *)

Module Example2.

(** The client of [Example] after [dir/x] was deleted by hand. *)
Definition partial_client : Client.t :=
  Client.mk {["ds" := Example.ds]} {["a.txt"; "dir/y"]} [].

End Example2.

(** The questions put to the user among what was written to the terminal. *)
Definition asks (out : list Output) : list string :=
  omap (fun o => match o with Confirm text => Some text | _ => None end) out.

(** * Proofs *)

(** Closes a decidable goal on concrete data by evaluating its decision. *)
Ltac by_decide :=
  match goal with
  | |- ?P => apply (@bool_decide_unpack P _); vm_compute; exact I
  end.

(** ** Strings *)

Lemma append_cons c (a b : string) : String c a +:+ b = String c (a +:+ b).
Proof. reflexivity. Qed.

Lemma append_nil_r (a : string) : a +:+ "" = a.
Proof. induction a as [|c a IH]; [reflexivity|]. now rewrite append_cons, IH. Qed.

Lemma append_assoc (a b c : string) : (a +:+ b) +:+ c = a +:+ (b +:+ c).
Proof.
  induction a as [|x a IH]; [reflexivity|]. now rewrite !append_cons, IH.
Qed.

Lemma includes_refl s : includes s s.
Proof. exists "", "". now rewrite append_nil_r. Qed.

Lemma includes_app_l s a b : includes s a -> includes s (a +:+ b).
Proof.
  intros (pre & post & ->). exists pre, (post +:+ b).
  now rewrite !append_assoc.
Qed.

Lemma includes_app_r s a b : includes s b -> includes s (a +:+ b).
Proof.
  intros (pre & post & ->). exists (a +:+ pre), post.
  now rewrite !append_assoc.
Qed.

Lemma includes_trans a b c : includes a b -> includes b c -> includes a c.
Proof.
  intros (p1 & q1 & ->) (p2 & q2 & ->). exists (p2 +:+ p1), (q1 +:+ q2).
  now rewrite !append_assoc.
Qed.

Lemma includes_concat sep s parts :
  In s parts -> includes s (String.concat sep parts).
Proof.
  induction parts as [|p ps IH]; [intros []|].
  intros [-> | Hin].
  - destruct ps; [apply includes_refl|].
    apply includes_app_l, includes_refl.
  - destruct ps as [|p' ps']; [destruct Hin|].
    change (String.concat sep (p :: p' :: ps'))
      with (p +:+ sep +:+ String.concat sep (p' :: ps')).
    now apply includes_app_r, includes_app_r, IH.
Qed.

Lemma format_error_includes err :
  includes (ErrorEntry.field err) (format_error err)
  /\ includes (ErrorEntry.message err) (format_error err).
Proof.
  unfold format_error. split.
  - apply includes_app_r, includes_app_l, includes_refl.
  - do 5 apply includes_app_r. apply includes_app_l, includes_refl.
Qed.

(** ** Response status *)

Section CheckOrRaise.

Variable response : Response.t.

Lemma check_success :
  Response.status_code response ∈ [200; 201; 202] ->
  _check_or_raise response = inr tt.
Proof.
  intros Hin. unfold _check_or_raise.
  now rewrite bool_decide_eq_true_2.
Qed.

Lemma check_unauthorized :
  Response.status_code response = 401 ->
  _check_or_raise response
  = inl (HTTPError "Access unauthorized - update access token.").
Proof. intros Hc. unfold _check_or_raise. now rewrite Hc. Qed.

Lemma check_validation errs :
  Response.status_code response = 400 ->
  Response.body response = Some (JErrors errs) ->
  _check_or_raise response
  = inl (HTTPError
           (newline +:+ String.concat newline (map format_error errs))).
Proof.
  intros Hc Hb. unfold _check_or_raise, Response.json.
  now rewrite Hc, Hb.
Qed.

Lemma check_other :
  Response.status_code response ∉ [200; 201; 202; 400; 401] ->
  _check_or_raise response = inl (HTTPError (Response.content response)).
Proof.
  intros Hin. repeat apply not_elem_of_cons in Hin as [? Hin].
  unfold _check_or_raise.
  rewrite bool_decide_eq_false_2
    by (rewrite !elem_of_cons, elem_of_nil; intuition congruence).
  simpl.
  destruct (Z.eqb_spec (Response.status_code response) 401); [congruence|].
  destruct (Z.eqb_spec (Response.status_code response) 400); [congruence|].
  reflexivity.
Qed.

End CheckOrRaise.

(** C2: the status codes 200, 201 and 202 pass the check; 401 raises the
    authorization error; 400 raises the validation error, whose message
    is a newline followed by one line per entry of the payload's [errors]
    list and so includes each entry's field and message; every other code
    raises the transfer error that carries the response's content.  All
    three errors are [HTTPError]s, told apart by their message. *)
Theorem check_or_raise_by_status (response : Response.t) :
  (Response.status_code response ∈ [200; 201; 202] ->
     _check_or_raise response = inr tt)
  /\ (Response.status_code response = 401 ->
        _check_or_raise response
        = inl (HTTPError "Access unauthorized - update access token."))
  /\ (forall errs,
        Response.status_code response = 400 ->
        Response.body response = Some (JErrors errs) ->
        exists msg,
          _check_or_raise response = inl (HTTPError msg)
          /\ msg = newline +:+ String.concat newline (map format_error errs)
          /\ forall err, err ∈ errs ->
               includes (ErrorEntry.field err) msg
               /\ includes (ErrorEntry.message err) msg)
  /\ (Response.status_code response ∉ [200; 201; 202; 400; 401] ->
        _check_or_raise response = inl (HTTPError (Response.content response))).
Proof.
  repeat split.
  - apply check_success.
  - apply check_unauthorized.
  - intros errs Hc Hb. eexists. split; [exact (check_validation _ _ Hc Hb)|].
    split; [reflexivity|]. intros err Hin.
    assert (Hfmt : includes (format_error err)
                     (newline +:+ String.concat newline (map format_error errs))).
    { apply includes_app_r, includes_concat, in_map, list_elem_of_In, Hin. }
    destruct (format_error_includes err) as [Hfield Hmessage].
    split; eapply includes_trans; eassumption.
  - apply check_other.
Qed.

Lemma check_or_raise_by_status_witness :
  _check_or_raise (Response.mk 201 "" None) = inr tt
  /\ _check_or_raise (Response.mk 401 "" None)
     = inl (HTTPError "Access unauthorized - update access token.")
  /\ (exists msg,
        _check_or_raise
          (Response.mk 400 "" (Some (JErrors [ErrorEntry.mk "title" "required"])))
        = inl (HTTPError msg)
        /\ includes "title" msg /\ includes "required" msg)
  /\ _check_or_raise (Response.mk 500 "boom" None) = inl (HTTPError "boom").
Proof.
  split; [|split; [|split]].
  - apply (proj1 (check_or_raise_by_status (Response.mk 201 "" None))).
    by_decide.
  - apply (proj1 (proj2 (check_or_raise_by_status (Response.mk 401 "" None)))).
    reflexivity.
  - destruct (proj1 (proj2 (proj2 (check_or_raise_by_status
                 (Response.mk 400 ""
                    (Some (JErrors [ErrorEntry.mk "title" "required"]))))))
                [ErrorEntry.mk "title" "required"] eq_refl eq_refl)
      as (msg & Hraise & _ & Hincl).
    exists msg. split; [exact Hraise|].
    apply (Hincl (ErrorEntry.mk "title" "required")). left.
  - apply (proj2 (proj2 (proj2 (check_or_raise_by_status
                                  (Response.mk 500 "boom" None))))).
    by_decide.
Defined.

(** ** Enumerating the files of a record *)

Lemma get_files_empty (self : ZenodoRecordSerializer.t) :
  ZenodoRecordSerializer.files self = [] ->
  ZenodoRecordSerializer.get_files self
  = inl (LookupError "no files have been found").
Proof. intros E. unfold ZenodoRecordSerializer.get_files. now rewrite E. Qed.

Lemma get_files_nonempty (self : ZenodoRecordSerializer.t) :
  ZenodoRecordSerializer.files self <> [] ->
  ZenodoRecordSerializer.get_files self
  = inr (map ZenodoFileSerializer.of_dict (ZenodoRecordSerializer.files self)).
Proof.
  intros E. unfold ZenodoRecordSerializer.get_files.
  destruct (ZenodoRecordSerializer.files self); [congruence|reflexivity].
Qed.

Lemma as_dataset_no_files env (self : ZenodoRecordSerializer.t) w :
  ZenodoRecordSerializer.files self = [] ->
  Serializer.as_dataset env self w
  = (inl (LookupError "no files have been found"), w).
Proof.
  intros E. unfold Serializer.as_dataset, M.bind, M.lift.
  now rewrite (get_files_empty _ E).
Qed.

(** C4: enumerating the files of a record whose file list is empty fails
    with the not-found error [LookupError], in the provider's serializer
    and in the older [Record] alike, and so does turning such a record into
    a dataset, which is how it is resolved as an import source; a record
    with at least one file yields one entry per file, in order, carrying
    that file's checksum and size. *)
Theorem get_files_not_found_or_one_per_file
    (self : ZenodoRecordSerializer.t) (old : Record.t) :
  (ZenodoRecordSerializer.files self = [] ->
     ZenodoRecordSerializer.get_files self
     = inl (LookupError "no files have been found")
     /\ forall env w,
          Serializer.as_dataset env self w
          = (inl (LookupError "no files have been found"), w))
  /\ (ZenodoRecordSerializer.files self <> [] ->
        exists entries,
          ZenodoRecordSerializer.get_files self = inr entries
          /\ Forall2 (fun file_ entry =>
                        ZenodoFileSerializer.checksum entry = FileEntry.checksum file_
                        /\ ZenodoFileSerializer.filesize entry = FileEntry.filesize file_)
               (ZenodoRecordSerializer.files self) entries)
  /\ (Record.data_files old = [] ->
        Record.get_files old = inl (LookupError "no files have been found"))
  /\ (Record.data_files old <> [] ->
        exists entries,
          Record.get_files old = inr entries
          /\ Forall2 (fun file_ entry =>
                        RecordFile.checksum entry = RecordFile.d_checksum file_
                        /\ RecordFile.size entry = RecordFile.d_size file_)
               (Record.data_files old) entries).
Proof.
  repeat split.
  - now apply get_files_empty.
  - intros env w. now apply as_dataset_no_files.
  - intros Hne. eexists. split; [now apply get_files_nonempty|].
    apply Forall2_fmap_r, Forall_Forall2_diag, Forall_forall. now intros.
  - intros E. unfold Record.get_files. now rewrite E.
  - intros Hne. unfold Record.get_files.
    destruct (Record.data_files old) as [|file_ rest] eqn:E; [congruence|].
    eexists. split; [reflexivity|].
    apply Forall2_fmap_r, Forall_Forall2_diag, Forall_forall. now intros.
Qed.

Lemma get_files_not_found_or_one_per_file_witness :
  ZenodoRecordSerializer.get_files (Example.record [])
  = inl (LookupError "no files have been found")
  /\ (exists entries,
        ZenodoRecordSerializer.get_files (Example.record [Example.remote_file])
        = inr entries
        /\ length entries = 1%nat)
  /\ Record.get_files (Record.mk "https://zenodo.org/api/" [])
     = inl (LookupError "no files have been found")
  /\ (exists entries,
        Record.get_files
          (Record.mk "https://zenodo.org/api/" [Example.old_record_file])
        = inr entries
        /\ length entries = 1%nat).
Proof.
  split; [|split; [|split]].
  - apply (get_files_not_found_or_one_per_file
             (Example.record []) (Record.mk "" [])).
    reflexivity.
  - destruct (proj1 (proj2 (get_files_not_found_or_one_per_file
                 (Example.record [Example.remote_file]) (Record.mk "" [])))
                ltac:(discriminate))
      as (entries & Hget & Hall).
    exists entries. split; [exact Hget|].
    symmetry. exact (Forall2_length _ _ _ Hall).
  - apply (get_files_not_found_or_one_per_file
             (Example.record []) (Record.mk "https://zenodo.org/api/" [])).
    reflexivity.
  - destruct (proj2 (proj2 (proj2 (get_files_not_found_or_one_per_file
                 (Example.record [])
                 (Record.mk "https://zenodo.org/api/" [Example.old_record_file]))))
                ltac:(discriminate))
      as (entries & Hget & Hall).
    exists entries. split; [exact Hget|].
    symmetry. exact (Forall2_length _ _ _ Hall).
Defined.

(** ** Looking a record up *)

Section MakeRequest.

Variable env : Env.t.
Variable uri : string.
Variable w : World.t.

Let rq := ZenodoProvider.records_request env (World._accept w) uri.

Lemma make_request_reply :
  ZenodoProvider.make_request env uri w
  = match Env.server env (World.trace w) rq with
    | inl e => (inl e, World.log (Call rq) w)
    | inr response =>
        if Response.status_code response =? 200
        then (inr response, World.log (Call rq) w)
        else (inl (LookupError "record not found"), World.log (Call rq) w)
    end.
Proof.
  unfold ZenodoProvider.make_request, M.bind, M.get, send. fold rq.
  destruct (Env.server env (World.trace w) rq) as [e|response]; [reflexivity|].
  now destruct (Response.status_code response =? 200).
Qed.

Lemma get_record_reply response data :
  Env.server env (World.trace w) rq = inr response ->
  Response.status_code response = 200 ->
  Response.body response = Some (JRecord data) ->
  ZenodoProvider.get_record env uri w
  = (inr (ZenodoRecordSerializer.of_dict data uri), World.log (Call rq) w).
Proof.
  intros Hs Hc Hb. unfold ZenodoProvider.get_record, M.bind.
  rewrite make_request_reply, Hs, Hc. simpl.
  unfold M.lift, Response.json. now rewrite Hb.
Qed.

End MakeRequest.

(** C5, as the code has it: a lookup fails with the record-not-found error
    [LookupError] exactly when the status of the response is not 200, and
    returns the response exactly when it is 200; the record is then built
    from the body. *)
Theorem make_request_not_found_iff_not_200
    (env : Env.t) (uri : string) (w w' : World.t) (response : Response.t) :
  Env.server env (World.trace w)
    (ZenodoProvider.records_request env (World._accept w) uri) = inr response ->
  w' = World.log
         (Call (ZenodoProvider.records_request env (World._accept w) uri)) w ->
  (ZenodoProvider.make_request env uri w
   = (inl (LookupError "record not found"), w')
   <-> Response.status_code response <> 200)
  /\ (ZenodoProvider.make_request env uri w = (inr response, w')
      <-> Response.status_code response = 200)
  /\ (forall data,
        Response.status_code response = 200 ->
        Response.body response = Some (JRecord data) ->
        ZenodoProvider.get_record env uri w
        = (inr (ZenodoRecordSerializer.of_dict data uri), w')).
Proof.
  intros Hs ->. rewrite make_request_reply. rewrite Hs.
  destruct (Z.eqb_spec (Response.status_code response) 200) as [E|E].
  - repeat split; try congruence.
    intros data _ Hb. exact (get_record_reply env uri w response data Hs E Hb).
  - repeat split; congruence.
Qed.

Lemma make_request_not_found_iff_not_200_witness :
  ZenodoProvider.make_request Example.env "https://zenodo.org/record/42"
    Example.world
  = (inr (Response.mk 200 "" (Some (JJsonld Example.doc))),
     World.log
       (Call (ZenodoProvider.records_request Example.env "application/json"
                "https://zenodo.org/record/42"))
       Example.world).
Proof.
  apply (make_request_not_found_iff_not_200 Example.env
           "https://zenodo.org/record/42" Example.world _
           (Response.mk 200 "" (Some (JJsonld Example.doc)))).
  - reflexivity.
  - reflexivity.
  - reflexivity.
Defined.

(** The spec's "non-2xx" does not hold for C5: a lookup answered with
    202, a 2xx status, raises the record-not-found error. *)
Lemma make_request_202_not_found :
  Env.server (Example.env_of Example.slow) (World.trace Example.world)
    (ZenodoProvider.records_request (Example.env_of Example.slow)
       (World._accept Example.world) "https://zenodo.org/record/42")
  = inr (Response.mk 202 "" (Some (JRecord Example.record_data)))
  /\ 200 <= 202 < 300
  /\ fst (ZenodoProvider.make_request (Example.env_of Example.slow)
            "https://zenodo.org/record/42" Example.world)
     = inl (LookupError "record not found").
Proof. repeat split; reflexivity || discriminate. Qed.

(** ** From a record to a dataset *)

Lemma get_jsonld_reply env (self : ZenodoRecordSerializer.t) w response doc :
  Env.server env (World.trace w)
    (ZenodoProvider.records_request env "application/ld+json"
       (ZenodoRecordSerializer._uri self)) = inr response ->
  Response.status_code response = 200 ->
  Response.body response = Some doc ->
  Serializer.get_jsonld env self w
  = (inr (ZenodoRecordSerializer.set_jsonld self doc, doc),
     World.log
       (Call (ZenodoProvider.records_request env "application/ld+json"
                (ZenodoRecordSerializer._uri self)))
       (World.set_accept "application/ld+json" w)).
Proof.
  intros Hs Hc Hb. unfold Serializer.get_jsonld, M.bind at 1.
  unfold ZenodoProvider.accept_jsonld, M.modify, M.bind at 1.
  rewrite make_request_reply. simpl. rewrite Hs, Hc. simpl.
  unfold M.bind, M.lift, Response.json. now rewrite Hb.
Qed.

(** C3, as the code has it: for a record with at least one remote file
    whose JSON-LD document the registry hands out, [as_dataset] returns a
    dataset with one file record per remote file, in order, each keeping
    the remote file's id, checksum, filename and size, pointing to its
    download link and having the empty path; the dataset's name,
    description and creators are the title, description and creators of the
    document. *)
Theorem as_dataset_one_record_per_remote_file
    (env : Env.t) (self : ZenodoRecordSerializer.t) (w : World.t)
    (response : Response.t) (doc : Jsonld.t) :
  ZenodoRecordSerializer.files self <> [] ->
  Env.server env (World.trace w)
    (ZenodoProvider.records_request env "application/ld+json"
       (ZenodoRecordSerializer._uri self)) = inr response ->
  Response.status_code response = 200 ->
  Response.body response = Some (JJsonld doc) ->
  exists dataset w',
    Serializer.as_dataset env self w = (inr dataset, w')
    /\ Forall2 (fun remote file =>
                  DatasetFile.id file = FileEntry.id remote
                  /\ DatasetFile.checksum file = FileEntry.checksum remote
                  /\ DatasetFile.filename file = FileEntry.filename remote
                  /\ DatasetFile.filesize file = FileEntry.filesize remote
                  /\ DatasetFile.url file
                     = urlparse (FileEntry.download (FileEntry.links remote))
                  /\ DatasetFile.path file = "")
         (ZenodoRecordSerializer.files self) (Dataset.files dataset)
    /\ Dataset.name dataset = Jsonld.name doc
    /\ Dataset.description dataset = Jsonld.description doc
    /\ Dataset.creator dataset = Jsonld.creator doc.
Proof.
  intros Hne Hs Hc Hb. do 2 eexists. split.
  - unfold Serializer.as_dataset, M.bind at 1, M.lift at 1.
    rewrite (get_files_nonempty _ Hne).
    unfold M.bind at 1. rewrite (get_jsonld_reply _ _ _ _ _ Hs Hc Hb).
    reflexivity.
  - simpl. repeat split.
    apply Forall2_fmap_r, Forall2_fmap_r, Forall_Forall2_diag, Forall_forall.
    now intros.
Qed.

Lemma as_dataset_one_record_per_remote_file_witness :
  exists dataset w',
    Serializer.as_dataset Example.env (Example.record [Example.remote_file])
      Example.world = (inr dataset, w')
    /\ length (Dataset.files dataset) = 1%nat
    /\ Dataset.name dataset = "Weather data".
Proof.
  destruct (as_dataset_one_record_per_remote_file Example.env
              (Example.record [Example.remote_file]) Example.world
              (Response.mk 200 "" (Some (JJsonld Example.doc))) Example.doc
              ltac:(discriminate) eq_refl eq_refl eq_refl)
    as (dataset & w' & Hrun & Hfiles & Hname & _).
  exists dataset, w'. split; [exact Hrun|]. split; [|exact Hname].
  symmetry. exact (Forall2_length _ _ _ Hfiles).
Defined.

(** C3 does not hold for every record: a record without files gives no
    dataset, so nothing is mapped, although the registry hands out the
    record's JSON-LD document. *)
Lemma as_dataset_without_files_raises :
  Serializer.as_dataset Example.env (Example.record []) Example.world
  = (inl (LookupError "no files have been found"), Example.world)
  /\ ~ exists dataset w',
        Serializer.as_dataset Example.env (Example.record []) Example.world
        = (inr dataset, w').
Proof.
  split; [reflexivity|]. intros (dataset & w' & H). discriminate H.
Qed.

(** ** Export: the run in which the registry accepts every request *)

Lemma accepted_check reply :
  accepted reply ->
  exists response, reply = inr response /\ _check_or_raise response = inr tt.
Proof.
  intros (response & -> & Hc). exists response. split; [reflexivity|].
  now apply check_success.
Qed.

(** Brings an appended trace into right-nested form. *)
Ltac trace_norm := repeat (rewrite <- !app_assoc; simpl).

Lemma world_log_log w ev1 ev2 :
  World.log ev2 (World.log ev1 w)
  = World.mk (World._accept w) (World.trace w ++ [ev1; ev2]).
Proof. unfold World.log. simpl. now rewrite <- app_assoc. Qed.

Section ExportAccepted.

Variable env : Env.t.
Variable self : ZenodoExporter.t.
Variable deposition_id : Z.

Hypothesis server_accepts : forall tr rq, accepted (Env.server env tr rq).

Let upload (file_ : DatasetFile.t) : M.t World.t unit :=
  let* response :=
    ZenodoExporter.upload_file env self deposition_id
      (DatasetFile.full_path file_) in
  M.lift (_check_or_raise response) ;;
  M.modify (World.log (BarUpdate 1)).

Lemma send_accepted rq w :
  exists response,
    send env rq w = (inr response, World.log (Call rq) w)
    /\ _check_or_raise response = inr tt.
Proof.
  destruct (accepted_check _ (server_accepts (World.trace w) rq))
    as (response & Hs & Hc).
  exists response. unfold send. now rewrite Hs.
Qed.

Lemma upload_accepted file_ w :
  DatasetFile.full_path file_ ∈ Env.readable env ->
  upload file_ w
  = (inr tt,
     World.mk (World._accept w)
       (World.trace w ++ upload_events env self deposition_id file_)).
Proof.
  intros Hr. unfold upload, ZenodoExporter.upload_file, open_rb.
  rewrite bool_decide_eq_true_2 by assumption.
  unfold M.bind at 1 2. unfold M.ret at 1.
  destruct (send_accepted
              (ZenodoExporter.upload_file_request env self deposition_id
                 (DatasetFile.full_path file_) (DatasetFile.full_path file_)) w)
    as (response & -> & Hc).
  unfold M.bind, M.lift, M.modify. rewrite Hc.
  now rewrite world_log_log.
Qed.

Lemma upload_loop_accepted files w :
  (forall file_, file_ ∈ files ->
                 DatasetFile.full_path file_ ∈ Env.readable env) ->
  M.for_each files upload w
  = (inr tt,
     World.mk (World._accept w)
       (World.trace w
        ++ concat (map (upload_events env self deposition_id) files))).
Proof.
  revert w. induction files as [|file_ files IH]; intros w Hr.
  - simpl. unfold M.ret. rewrite app_nil_r. now destruct w.
  - simpl M.for_each. unfold M.bind.
    rewrite upload_accepted by (apply Hr; left).
    rewrite IH by (intros; apply Hr; now right).
    simpl World.trace. simpl World._accept.
    now rewrite <- app_assoc.
Qed.


End ExportAccepted.



(** ** Export: any run *)

Lemma requests_of_app evs1 evs2 :
  requests_of (evs1 ++ evs2) = requests_of evs1 ++ requests_of evs2.
Proof. apply omap_app. Qed.

Lemma app_snoc {A} (l : list A) x k : (l ++ [x]) ++ k = l ++ x :: k.
Proof. now rewrite <- app_assoc. Qed.

Section Runs.

Variable env : Env.t.

Lemma all_accepted_app tr0 evs1 evs2 :
  all_accepted env tr0 evs1 ->
  all_accepted env (tr0 ++ evs1) evs2 ->
  all_accepted env tr0 (evs1 ++ evs2).
Proof.
  revert tr0. induction evs1 as [|ev evs1 IH]; intros tr0 H1 H2.
  - now rewrite app_nil_r in H2.
  - destruct H1 as [Hev H1]. split; [exact Hev|].
    apply IH; [exact H1|]. now rewrite app_snoc.
Qed.

Lemma no_requests_accepted tr0 evs :
  requests_of evs = [] -> all_accepted env tr0 evs.
Proof.
  revert tr0. induction evs as [|ev evs IH]; intros tr0 Hn; [exact I|].
  destruct ev; try discriminate Hn; split; auto.
Qed.

Lemma no_requests_stops tr0 evs res :
  requests_of evs = [] -> stops_at_failure env tr0 evs res.
Proof.
  revert tr0. induction evs as [|ev evs IH]; intros tr0 Hn; [exact I|].
  destruct ev; try discriminate Hn; simpl; auto.
Qed.

Lemma stops_app tr0 evs1 evs2 res :
  all_accepted env tr0 evs1 ->
  stops_at_failure env (tr0 ++ evs1) evs2 res ->
  stops_at_failure env tr0 (evs1 ++ evs2) res.
Proof.
  revert tr0. induction evs1 as [|ev evs1 IH]; intros tr0 H1 H2.
  - now rewrite app_nil_r in H2.
  - destruct H1 as [Hev H1].
    assert (Hrest : stops_at_failure env (tr0 ++ [ev]) (evs1 ++ evs2) res).
    { apply IH; [exact H1|]. now rewrite app_snoc. }
    destruct ev; simpl; try exact Hrest. now rewrite Hev.
Qed.

Lemma stops_then_quiet tr0 evs extra res :
  stops_at_failure env tr0 evs res ->
  requests_of extra = [] ->
  stops_at_failure env tr0 (evs ++ extra) res.
Proof.
  revert tr0. induction evs as [|ev evs IH]; intros tr0 Hs Hq.
  - now apply no_requests_stops.
  - destruct ev; simpl in *; try (now apply IH).
    destruct (failure (Env.server env tr0 rq)); [|now apply IH].
    destruct Hs as [-> Hs]. split; [reflexivity|].
    now rewrite requests_of_app, Hs, Hq.
Qed.

(** The recursive reading of [stops_at_failure], spelled out. *)
Lemma stops_at_failure_spec tr0 evs res pre rq rest e :
  stops_at_failure env tr0 evs res ->
  evs = pre ++ Call rq :: rest ->
  failure (Env.server env (tr0 ++ pre) rq) = Some e ->
  res = Some e /\ requests_of rest = [].
Proof.
  revert tr0 evs. induction pre as [|ev pre IH]; intros tr0 evs Hs -> Hf.
  - rewrite app_nil_r in Hf. simpl in Hs. now rewrite Hf in Hs.
  - rewrite <- app_snoc in Hf.
    assert (Hrest : stops_at_failure env (tr0 ++ [ev])
                      (pre ++ Call rq :: rest) res
                    -> res = Some e /\ requests_of rest = []).
    { intros Hs'. exact (IH _ _ Hs' eq_refl Hf). }
    destruct ev; simpl in Hs; try (now apply Hrest).
    destruct (failure (Env.server env tr0 rq0)); [|now apply Hrest].
    destruct Hs as [_ Hs]. rewrite requests_of_app in Hs.
    now apply app_eq_nil in Hs as [_ Hs].
Qed.

Lemma follows_bind {A B} (m : M.t World.t A) (k : A -> M.t World.t B)
    w exp1 exp2 :
  follows env w (m w) exp1 ->
  (forall a w1, m w = (inr a, w1) -> follows env w1 (k a w1) exp2) ->
  follows env w (M.bind m k w) (exp1 ++ exp2).
Proof.
  intros (evs1 & Ht1 & Hp1 & Hs1 & Hok1) Hk. unfold M.bind.
  destruct (m w) as [[e|a] w1] eqn:Hm; simpl in *.
  - exists evs1. split; [assumption|]. split; [now apply prefix_app_r|].
    split; [assumption|discriminate].
  - destruct (Hok1 eq_refl) as [Hacc1 Hreq1].
    destruct (Hk a w1 eq_refl) as (evs2 & Ht2 & Hp2 & Hs2 & Hok2).
    exists (evs1 ++ evs2). rewrite Ht1 in Ht2, Hs2, Hok2.
    repeat split.
    + now rewrite Ht2, app_assoc.
    + rewrite requests_of_app, Hreq1. now apply prefix_app.
    + now apply stops_app.
    + apply all_accepted_app; [assumption|]. now apply Hok2.
    + rewrite requests_of_app, Hreq1. f_equal. now apply Hok2.
Qed.

(** Steps that send nothing. *)
Lemma follows_quiet {A} (w : World.t) (out : Result A * World.t) evs :
  World.trace (snd out) = World.trace w ++ evs ->
  requests_of evs = [] ->
  follows env w out [].
Proof.
  intros Ht Hq. exists evs. rewrite Hq. repeat split; try easy.
  - now apply no_requests_stops.
  - now apply no_requests_accepted.
Qed.

Lemma follows_ret {A} (a : A) w : follows env w (M.ret a w) [].
Proof. apply (follows_quiet _ _ []); [simpl; now rewrite app_nil_r|easy]. Qed.

Lemma follows_bar ev w :
  requests_of [ev] = [] ->
  follows env w (M.modify (World.log ev) w) [].
Proof. intros Hq. now apply (follows_quiet _ _ [ev]). Qed.

(** A request, the check of its response, and what comes next. *)
Lemma follows_send_check {B} rq (k : Response.t -> M.t World.t B) w expected :
  (forall response,
      Env.server env (World.trace w) rq = inr response ->
      _check_or_raise response = inr tt ->
      follows env (World.log (Call rq) w) (k response (World.log (Call rq) w))
        expected) ->
  follows env w
    ((let* response := send env rq in
      M.lift (_check_or_raise response) ;; k response) w)
    (rq :: expected).
Proof.
  intros Hk. unfold M.bind at 1, send.
  destruct (Env.server env (World.trace w) rq) as [e|response] eqn:Hs.
  - assert (Hf : failure (Env.server env (World.trace w) rq) = Some e)
      by now rewrite Hs.
    exists [Call rq]. simpl. rewrite Hf.
    repeat split; try easy. apply prefix_cons, prefix_nil.
  - unfold M.bind, M.lift.
    destruct (_check_or_raise response) as [e|[]] eqn:Hc.
    + assert (Hf : failure (Env.server env (World.trace w) rq) = Some e)
        by (unfold failure; now rewrite Hs, Hc).
      exists [Call rq]. simpl. rewrite Hf.
      repeat split; try easy. apply prefix_cons, prefix_nil.
    + assert (Hf : failure (Env.server env (World.trace w) rq) = None)
        by (unfold failure; now rewrite Hs, Hc).
      destruct (Hk response eq_refl Hc) as (evs & Ht & Hp & Hst & Hok).
      exists (Call rq :: evs). simpl in *. rewrite Hf.
      split; [now rewrite Ht, app_snoc|].
      split; [now apply prefix_cons|].
      split; [assumption|].
      intros Hnone. destruct (Hok Hnone) as [Hacc Hreq].
      repeat split; [assumption|now f_equal].
Qed.

(** Leaving a [with] block that logs its end. *)
Lemma follows_finally {A} (body : M.t World.t A) ev w expected :
  requests_of [ev] = [] ->
  follows env w (body w) expected ->
  follows env w (M.finally body (World.log ev) w) expected.
Proof.
  intros Hq (evs & Ht & Hp & Hs & Hok). unfold M.finally.
  assert (Hreq : requests_of (evs ++ [ev]) = requests_of evs)
    by now rewrite requests_of_app, Hq, app_nil_r.
  destruct (body w) as [res w1]. simpl fst in *. simpl snd in *.
  exists (evs ++ [ev]). rewrite Hreq. simpl World.trace.
  repeat split; try assumption.
  - now rewrite Ht, app_assoc.
  - now apply stops_then_quiet.
  - apply all_accepted_app; [now apply Hok|].
    now apply no_requests_accepted.
  - now apply Hok.
Qed.

End Runs.

Section ExportRuns.

Variable env : Env.t.
Variable self : ZenodoExporter.t.

Let upload_request (deposition_id : Z) (file_ : DatasetFile.t) : Request.t :=
  ZenodoExporter.upload_file_request env self deposition_id
    (DatasetFile.full_path file_) (DatasetFile.full_path file_).

Lemma follows_raise {A} w (e : Exc) expected :
  follows env w (@inl Exc A e, w) expected.
Proof.
  exists []. simpl. rewrite app_nil_r.
  repeat split; try easy. apply prefix_nil.
Qed.

Lemma upload_requests deposition_id files :
  requests_of (concat (map (upload_events env self deposition_id) files))
  = map (upload_request deposition_id) files.
Proof.
  induction files as [|file_ files IH]; [reflexivity|].
  simpl. now rewrite <- IH.
Qed.

Lemma export_requests_eq to_publish deposition_id :
  export_requests env self to_publish deposition_id
  = ZenodoExporter.new_deposition_request env self
    :: map (upload_request deposition_id)
         (Dataset.files (ZenodoExporter.dataset self))
    ++ ZenodoExporter.attach_metadata_request env self deposition_id
         (ZenodoExporter.dataset self)
    :: (if to_publish
        then [ZenodoExporter.publish_request env self deposition_id]
        else []).
Proof.
  unfold export_requests, export_events.
  rewrite !requests_of_app, upload_requests.
  now destruct to_publish.
Qed.

Lemma upload_follows deposition_id file_ w :
  follows env w
    ((let* response :=
        ZenodoExporter.upload_file env self deposition_id
          (DatasetFile.full_path file_) in
      M.lift (_check_or_raise response) ;;
      M.modify (World.log (BarUpdate 1))) w)
    [upload_request deposition_id file_].
Proof.
  unfold ZenodoExporter.upload_file, open_rb.
  destruct (bool_decide _).
  - change (follows env w
              ((let* response := send env (upload_request deposition_id file_) in
                M.lift (_check_or_raise response) ;;
                M.modify (World.log (BarUpdate 1))) w)
              [upload_request deposition_id file_]).
    apply follows_send_check. intros response _ _.
    now apply follows_bar.
  - apply follows_raise.
Qed.

Lemma upload_loop_follows deposition_id files w :
  follows env w
    (M.for_each files (fun file_ =>
       let* response :=
         ZenodoExporter.upload_file env self deposition_id
           (DatasetFile.full_path file_) in
       M.lift (_check_or_raise response) ;;
       M.modify (World.log (BarUpdate 1))) w)
    (map (upload_request deposition_id) files).
Proof.
  revert w. induction files as [|file_ files IH]; intros w.
  - apply follows_ret.
  - simpl M.for_each.
    apply (follows_bind env _ _ w [upload_request deposition_id file_]).
    + apply upload_follows.
    + intros _ w1 _. apply IH.
Qed.

Lemma upload_all_follows deposition_id w :
  follows env w (ZenodoExporter.upload_all env self deposition_id w)
    (map (upload_request deposition_id)
       (Dataset.files (ZenodoExporter.dataset self))).
Proof.
  unfold ZenodoExporter.upload_all.
  apply follows_finally; [reflexivity|].
  apply (follows_bind env _ _ w []).
  - now apply follows_bar.
  - intros _ w1 _. apply upload_loop_follows.
Qed.

Lemma export_follows to_publish w :
  exists deposition_id,
    follows env w (ZenodoExporter.export env self to_publish w)
      (export_requests env self to_publish deposition_id).
Proof.
  set (rq := ZenodoExporter.new_deposition_request env self).
  exists (match Env.server env (World.trace w) rq with
          | inr response =>
              match Response.body response with
              | Some (JDeposition deposition_id) => deposition_id
              | _ => 0
              end
          | inl _ => 0
          end).
  rewrite export_requests_eq.
  unfold ZenodoExporter.export, ZenodoExporter.new_deposition. fold rq.
  apply follows_send_check. intros response -> _.
  unfold Response.json.
  destruct (Response.body response) as [j|]; [|apply follows_raise].
  unfold M.bind at 1, M.lift at 1.
  destruct j as [deposition_id| | | |]; try apply follows_raise.
  unfold M.bind at 1, M.lift at 1. simpl getitem_id. cbv iota beta.
  apply follows_bind; [apply upload_all_follows|].
  intros _ w1 _. unfold ZenodoExporter.attach_metadata.
  apply follows_send_check. intros _ _ _.
  destruct to_publish.
  - unfold ZenodoExporter.publish_deposition.
    apply follows_send_check. intros _ _ _. apply follows_ret.
  - apply follows_ret.
Qed.

End ExportRuns.

(** C6, as the code has it: export retries nothing.  Whatever the
    registry answers, the requests of a run are a prefix of the export
    sequence (create, one upload per file, attach metadata, publish), each
    sent once; and when a request fails, because the connection failed or
    the response is not a 200, 201 or 202, export raises that failure to
    its caller and sends no further request. *)
Theorem export_never_retries
    (env : Env.t) (self : ZenodoExporter.t) (to_publish : bool) (w : World.t) :
  exists evs deposition_id,
    World.trace (snd (ZenodoExporter.export env self to_publish w))
    = World.trace w ++ evs
    /\ requests_of evs `prefix_of` export_requests env self to_publish deposition_id
    /\ forall pre rq rest e,
         evs = pre ++ Call rq :: rest ->
         failure (Env.server env (World.trace w ++ pre) rq) = Some e ->
         fst (ZenodoExporter.export env self to_publish w) = inl e
         /\ requests_of rest = [].
Proof.
  destruct (export_follows env self to_publish w)
    as (deposition_id & evs & Ht & Hp & Hs & _).
  exists evs, deposition_id. split; [exact Ht|]. split; [exact Hp|].
  intros pre rq rest e Hevs Hf.
  destruct (stops_at_failure_spec env _ _ _ _ _ _ _ Hs Hevs Hf) as [Hres Hrest].
  split; [|exact Hrest].
  destruct (fst (ZenodoExporter.export env self to_publish w)); simpl in Hres;
    congruence.
Qed.

(** C6 does not hold with a retry: the registry answers the first upload
    with a 500 and would accept a second one, yet export raises at once,
    having sent the upload once. *)
Lemma export_does_not_retry :
  ZenodoExporter.export (Example.env_of Example.flaky) Example.exporter true
    Example.world
  = (inl (HTTPError "Internal Server Error"),
     World.mk "application/json"
       [Call (ZenodoExporter.new_deposition_request
                (Example.env_of Example.flaky) Example.exporter);
        BarOpen 1;
        Call (ZenodoExporter.upload_file_request
                (Example.env_of Example.flaky) Example.exporter 7
                "/repo/data/ds/a.txt" "/repo/data/ds/a.txt");
        BarClose])
  /\ ~ retries_failures (Example.env_of Example.flaky)
        (World.trace Example.world)
        (World.trace
           (snd (ZenodoExporter.export (Example.env_of Example.flaky)
                   Example.exporter true Example.world))).
Proof.
  split; [reflexivity|]. intros Hretry.
  specialize (Hretry
    [Call (ZenodoExporter.new_deposition_request
             (Example.env_of Example.flaky) Example.exporter);
     BarOpen 1]
    (ZenodoExporter.upload_file_request
       (Example.env_of Example.flaky) Example.exporter 7
       "/repo/data/ds/a.txt" "/repo/data/ds/a.txt")
    [BarClose] eq_refl ltac:(discriminate)).
  inversion Hretry.
Qed.

(** ** The dataset commands *)

Lemma bind_inr {S A B} (m : M.t S A) (k : A -> M.t S B) s a s' :
  m s = (inr a, s') -> M.bind m k s = k a s'.
Proof. intros H. unfold M.bind. now rewrite H. Qed.

Lemma bind_inl {S A B} (m : M.t S A) (k : A -> M.t S B) s e s' :
  m s = (inl e, s') -> M.bind m k s = (inl e, s').
Proof. intros H. unfold M.bind. now rewrite H. Qed.

Lemma scope_eta sc : Scope.mk (Scope.dataset sc) (Scope.client sc) = sc.
Proof. now destruct sc. Qed.

Lemma client_eta c :
  Client.mk (Client.datasets c) (Client.disk c) (Client.stdout c) = c.
Proof. now destruct c. Qed.

Lemma set_files_same d : Dataset.set_files d (Dataset.files d) = d.
Proof. now destruct d. Qed.

Lemma filter_all {A} (P : A -> Prop) `{!forall x, Decision (P x)} (l : list A) :
  (forall x, x ∈ l -> P x) -> filter P l = l.
Proof.
  induction l as [|x l IH]; intros HP; [reflexivity|].
  rewrite filter_cons_True by (apply HP; left).
  f_equal. apply IH. intros y Hy. apply HP. now right.
Qed.

Lemma filter_iff_on {A} (P Q : A -> Prop) `{!forall x, Decision (P x)}
    `{!forall x, Decision (Q x)} (l : list A) :
  (forall x, x ∈ l -> P x <-> Q x) -> filter P l = filter Q l.
Proof.
  induction l as [|x l IH]; intros HPQ; [reflexivity|].
  assert (IH' : filter P l = filter Q l)
    by (apply IH; intros y Hy; apply HPQ; now right).
  destruct (decide (P x)) as [HP|HP].
  - rewrite !filter_cons_True; [now f_equal|now apply HPQ; [left|]|assumption].
  - rewrite !filter_cons_False; [assumption| |assumption].
    intros HQ. apply HP. apply HPQ; [left|assumption].
Qed.

Lemma NoDup_map_filter {A B} (f : A -> B) (P : A -> Prop)
    `{!forall x, Decision (P x)} (l : list A) :
  NoDup (map f l) -> NoDup (map f (filter P l)).
Proof.
  induction l as [|x l IH]; intros Hnd; [constructor|].
  simpl in Hnd. apply NoDup_cons in Hnd as [Hx Hnd].
  destruct (decide (P x)) as [HP|HP].
  - rewrite filter_cons_True by assumption. simpl.
    apply NoDup_cons. split; [|now apply IH].
    intros Hin. apply Hx.
    change (f x ∈ f <$> filter P l) in Hin.
    apply list_elem_of_fmap in Hin as (y & -> & Hy).
    apply list_elem_of_filter in Hy as [_ Hy].
    change (f y ∈ f <$> l). apply list_elem_of_fmap. now exists y.
  - rewrite filter_cons_False by assumption. now apply IH.
Qed.

Section Commands.

Variable env : CliEnv.t.

(** *** Leaving the [with_dataset] block *)

Section WithDataset.

Context {A : Type}.
Variable name : string.
Variable block : M.t Scope.t A.
Variable c : Client.t.

Let dataset : Dataset.t :=
  default (Cli.new_dataset env name) (Client.datasets c !! name).
Let entered : Scope.t :=
  Scope.mk dataset
    (Client.set_datasets c (<[name := dataset]> (Client.datasets c))).

Lemma with_dataset_raises e sc :
  block entered = (inl e, sc) ->
  Cli.with_dataset env name block c
  = (inl e,
     Client.mk (Client.datasets c) (Client.disk (Scope.client sc))
       (Client.stdout (Scope.client sc))).
Proof.
  intros Hb. unfold Cli.with_dataset. fold dataset. fold entered.
  now rewrite Hb.
Qed.

End WithDataset.

(** *** The loops of [unlink_files] *)

Lemma echo_loop xs sc :
  M.for_each xs Cli.echo sc
  = (inr tt,
     Scope.mk (Scope.dataset sc)
       (Client.mk (Client.datasets (Scope.client sc))
          (Client.disk (Scope.client sc))
          (Client.stdout (Scope.client sc) ++ map Echo xs))).
Proof.
  revert sc. induction xs as [|x xs IH]; intros sc.
  - simpl. rewrite app_nil_r, client_eta, scope_eta. reflexivity.
  - simpl M.for_each. unfold M.bind, Cli.echo at 1, M.modify.
    rewrite IH. simpl. now rewrite <- app_assoc.
Qed.

Lemma remove_loop ps dataset_name sc :
  M.for_each ps
    (fun file => Cli.remove_file (Cli.new_file env file dataset_name)) sc
  = (inr tt,
     Scope.mk
       (Dataset.set_files (Scope.dataset sc)
          (filter (fun f => DatasetFile.path f ∉ ps)
             (Dataset.files (Scope.dataset sc))))
       (Scope.client sc)).
Proof.
  revert sc. induction ps as [|p ps IH]; intros sc.
  - simpl. rewrite filter_all by (intros; apply not_elem_of_nil).
    now rewrite set_files_same, scope_eta.
  - simpl M.for_each. unfold M.bind, Cli.remove_file at 1, M.modify.
    rewrite IH. simpl. do 3 f_equal.
    rewrite list_filter_filter. apply list_filter_iff. intros f.
    rewrite not_elem_of_cons. tauto.
Qed.

Lemma unlink_loop ps sc :
  NoDup ps ->
  (forall p, p ∈ ps -> p ∈ Client.disk (Scope.client sc)) ->
  M.for_each ps Cli.Path_unlink sc
  = (inr tt,
     Scope.mk (Scope.dataset sc)
       (Client.mk (Client.datasets (Scope.client sc))
          (Client.disk (Scope.client sc) ∖ list_to_set ps)
          (Client.stdout (Scope.client sc)))).
Proof.
  revert sc. induction ps as [|p ps IH]; intros sc Hnd Hdisk.
  - simpl. rewrite difference_empty_L, client_eta, scope_eta. reflexivity.
  - apply NoDup_cons in Hnd as [Hp Hnd].
    simpl M.for_each. unfold M.bind, Cli.Path_unlink at 1.
    rewrite bool_decide_eq_true_2 by (apply Hdisk; left).
    rewrite IH; [| assumption |].
    + simpl. do 3 f_equal. apply difference_difference_l_L.
    + intros q Hq. simpl. apply elem_of_difference. split.
      * apply Hdisk. now right.
      * intros Heq. apply elem_of_singleton in Heq as ->. contradiction.
Qed.

End Commands.

Section Unlinking.

Variable env : CliEnv.t.
Variable glob : string.
Variable sc : Scope.t.

Let dataset : Dataset.t := Scope.dataset sc.
Let client : Client.t := Scope.client sc.
Let matched : list string := Cli.files_to_unlink env dataset glob.

Hypothesis unique_paths : NoDup (map DatasetFile.path (Dataset.files dataset)).
Hypothesis on_disk :
  forall f, f ∈ Dataset.files dataset -> DatasetFile.path f ∈ Client.disk client.

(** The scope after the files were unlinked, having written [shown] to the
    terminal before the progress bar. *)
Let unlinked (shown : list Output) : Scope.t :=
  Scope.mk
    (Dataset.set_files dataset
       (filter (fun f => CliEnv.glob_match env glob (DatasetFile.path f) <> true)
          (Dataset.files dataset)))
    (Client.mk (Client.datasets client)
       (Client.disk client ∖ list_to_set matched)
       (Client.stdout client
        ++ shown ++ [ProgressBar "Removing files from dataset" (length matched)])).

Lemma matched_spec p :
  p ∈ matched
  <-> exists f, f ∈ Dataset.files dataset
                /\ DatasetFile.path f = p
                /\ CliEnv.glob_match env glob p = true.
Proof.
  unfold matched, Cli.files_to_unlink.
  replace (map DatasetFile.path) with (fmap (M:=list) DatasetFile.path)
    by reflexivity.
  rewrite list_elem_of_fmap. split.
  - intros (f & -> & Hf). apply list_elem_of_filter in Hf as [Hm Hf].
    now exists f.
  - intros (f & Hf & <- & Hm). exists f. split; [reflexivity|].
    now apply list_elem_of_filter.
Qed.

Lemma matched_NoDup : NoDup matched.
Proof. now apply NoDup_map_filter. Qed.

Lemma matched_on_disk p : p ∈ matched -> p ∈ Client.disk client.
Proof.
  intros Hp. apply matched_spec in Hp as (f & Hf & <- & _). now apply on_disk.
Qed.

Lemma filter_not_matched :
  filter (fun f => DatasetFile.path f ∉ matched) (Dataset.files dataset)
  = filter (fun f => CliEnv.glob_match env glob (DatasetFile.path f) <> true)
      (Dataset.files dataset).
Proof.
  apply filter_iff_on. intros f Hf. rewrite matched_spec. split.
  - intros Hn Hm. apply Hn. now exists f.
  - intros Hn (g & _ & _ & Hm). exact (Hn Hm).
Qed.

(** What follows the question in [unlink_files]. *)
Lemma unlink_matched shown :
  forall sc0,
    Scope.dataset sc0 = dataset ->
    Scope.client sc0
    = Client.mk (Client.datasets client) (Client.disk client)
        (Client.stdout client ++ shown) ->
    (M.for_each matched (fun file =>
       Cli.remove_file (Cli.new_file env file (Dataset.name dataset))) ;;
     M.modify (Scope.on_client
                 (Client.write
                    (ProgressBar "Removing files from dataset" (length matched)))) ;;
     M.for_each matched Cli.Path_unlink ;;
     M.ret matched) sc0
    = (inr matched, unlinked shown).
Proof.
  intros sc0 Hd Hc. unfold M.bind at 1. rewrite remove_loop.
  unfold M.bind at 1, M.modify at 1.
  unfold M.bind at 1. rewrite unlink_loop.
  - unfold M.ret, unlinked. simpl. rewrite Hd, Hc. simpl.
    rewrite filter_not_matched. now rewrite <- app_assoc.
  - apply matched_NoDup.
  - intros p Hp. simpl. rewrite Hc. simpl. now apply matched_on_disk.
Qed.

Lemma unlink_files_unasked yes :
  Cli.unlink_files env yes glob None sc = (inr matched, unlinked []).
Proof.
  unfold Cli.unlink_files, M.bind at 1, Cli.the_dataset.
  unfold M.bind at 1, M.ret at 1. cbv iota beta.
  apply (unlink_matched []); [reflexivity|].
  fold client. now rewrite app_nil_r, client_eta.
Qed.

Lemma unlink_files_yes prompt :
  Cli.unlink_files env true glob (Some prompt) sc = (inr matched, unlinked []).
Proof.
  unfold Cli.unlink_files, M.bind at 1, Cli.the_dataset.
  unfold M.bind at 1, M.ret at 1. cbv iota beta. simpl negb. cbv iota.
  apply (unlink_matched []); [reflexivity|].
  fold client. now rewrite app_nil_r, client_eta.
Qed.

Let question : string :=
  CliEnv.WARNING env +:+ Cli.prompt_text matched (Dataset.name dataset).

Lemma unlink_files_confirmed :
  CliEnv.answer env question = true ->
  Cli.unlink_files env false glob (Some (Cli.delete_confirm_prompt env)) sc
  = (inr matched, unlinked [Confirm question]).
Proof.
  intros Hyes.
  unfold Cli.unlink_files, M.bind at 1, Cli.the_dataset.
  unfold M.bind at 1. simpl negb. cbv iota.
  unfold M.bind at 1, Cli.delete_confirm_prompt, Cli.confirm.
  unfold M.bind at 1, M.modify at 1, M.ret at 1.
  fold dataset. fold matched. fold question. rewrite Hyes.
  unfold M.ret at 1. simpl negb. cbv iota beta.
  now apply (unlink_matched [Confirm question]).
Qed.

End Unlinking.

Section Declining.

Variable env : CliEnv.t.
Variable glob : string.
Variable sc : Scope.t.

(** Declining needs nothing of the dataset or the disk. *)
Lemma unlink_files_declined :
  CliEnv.answer env
    (CliEnv.WARNING env
     +:+ Cli.prompt_text (Cli.files_to_unlink env (Scope.dataset sc) glob)
           (Dataset.name (Scope.dataset sc))) = false ->
  Cli.unlink_files env false glob (Some (Cli.delete_confirm_prompt env)) sc
  = (inl Abort,
     Scope.on_client
       (Client.write
          (Confirm
             (CliEnv.WARNING env
              +:+ Cli.prompt_text
                    (Cli.files_to_unlink env (Scope.dataset sc) glob)
                    (Dataset.name (Scope.dataset sc)))))
       sc).
Proof.
  intros Hno.
  unfold Cli.unlink_files, M.bind at 1, Cli.the_dataset.
  unfold M.bind at 1. simpl negb. cbv iota.
  unfold M.bind at 1, Cli.delete_confirm_prompt, Cli.confirm.
  unfold M.bind at 1, M.modify at 1, M.ret at 1.
  rewrite Hno. reflexivity.
Qed.

End Declining.

Section Commands.

Variable env : CliEnv.t.

Lemma with_dataset_existing {A} name (block : M.t Scope.t A) c ds :
  Client.datasets c !! name = Some ds ->
  Cli.with_dataset env name block c
  = match block (Scope.mk ds c) with
    | (inr a, sc) =>
        (inr a,
         Client.mk
           (alter (fun _ => Scope.dataset sc) name
              (Client.datasets (Scope.client sc)))
           (Client.disk (Scope.client sc)) (Client.stdout (Scope.client sc)))
    | (inl e, sc) =>
        (inl e,
         Client.mk (Client.datasets c) (Client.disk (Scope.client sc))
           (Client.stdout (Scope.client sc)))
    end.
Proof.
  intros Hlook. unfold Cli.with_dataset. rewrite Hlook. simpl default.
  rewrite (insert_id _ _ _ Hlook). unfold Client.set_datasets at 1.
  rewrite client_eta. reflexivity.
Qed.

(** What [unlink] writes after the files are gone leaves the dataset and
    the disk alone. *)
Lemma unlink_report (verbose : bool) (unlinked : list string) (sc : Scope.t) :
  exists out,
    ((Cli.echo "OK" ;;
      if verbose then
        Cli.echo (Cli.deleted_message unlinked) ;;
        M.for_each unlinked Cli.echo
      else M.ret tt) : M.t Scope.t unit) sc
    = (inr tt,
       Scope.mk (Scope.dataset sc)
         (Client.mk (Client.datasets (Scope.client sc))
            (Client.disk (Scope.client sc))
            (Client.stdout (Scope.client sc) ++ out))).
Proof.
  destruct verbose.
  - exists (Echo "OK" :: Echo (Cli.deleted_message unlinked) :: map Echo unlinked).
    unfold M.bind, Cli.echo at 1 2, M.modify. rewrite echo_loop. simpl.
    now trace_norm.
  - exists [Echo "OK"]. reflexivity.
Qed.

End Commands.

(** C7: [unlink], once the user has agreed (the yes flag, or a yes to the
    question), takes out of the dataset's file index exactly the files
    whose path matches the pattern, leaves every other file in it, and
    deletes the matched files from the disk; when the question is asked and
    the user declines, it aborts and neither the stored datasets nor the
    disk change. *)
Theorem unlink_removes_exactly_the_matches
    (env : CliEnv.t) (c : Client.t) (name pattern : string) (ds : Dataset.t)
    (yes verbose : bool) :
  Client.datasets c !! name = Some ds ->
  (yes = true
   \/ CliEnv.answer env
        (CliEnv.WARNING env
         +:+ Cli.prompt_text (Cli.files_to_unlink env ds pattern)
               (Dataset.name ds)) = true ->
   NoDup (map DatasetFile.path (Dataset.files ds)) ->
   (forall f, f ∈ Dataset.files ds -> DatasetFile.path f ∈ Client.disk c) ->
   exists c' ds',
     Cli.unlink env yes verbose name pattern c = (inr tt, c')
     /\ Client.datasets c' = <[name := ds']> (Client.datasets c)
     /\ (forall f,
           f ∈ Dataset.files ds'
           <-> f ∈ Dataset.files ds
               /\ CliEnv.glob_match env pattern (DatasetFile.path f) = false)
     /\ Client.disk c'
        = Client.disk c ∖ list_to_set (Cli.files_to_unlink env ds pattern))
  /\ (yes = false ->
      CliEnv.answer env
        (CliEnv.WARNING env
         +:+ Cli.prompt_text (Cli.files_to_unlink env ds pattern)
               (Dataset.name ds)) = false ->
      exists c',
        Cli.unlink env yes verbose name pattern c = (inl Abort, c')
        /\ Client.datasets c' = Client.datasets c
        /\ Client.disk c' = Client.disk c).
Proof.
  intros Hlook. split.
  - intros Hagreed Hnd Hdisk.
    assert (Hfiles :
      exists shown,
        Cli.unlink_files env yes pattern (Some (Cli.delete_confirm_prompt env))
          (Scope.mk ds c)
        = (inr (Cli.files_to_unlink env ds pattern),
           Scope.mk
             (Dataset.set_files ds
                (filter (fun f => CliEnv.glob_match env pattern
                                    (DatasetFile.path f) <> true)
                   (Dataset.files ds)))
             (Client.mk (Client.datasets c)
                (Client.disk c ∖ list_to_set (Cli.files_to_unlink env ds pattern))
                (Client.stdout c ++ shown)))).
    { destruct yes.
      - eexists. exact (unlink_files_yes env pattern (Scope.mk ds c) Hnd Hdisk _).
      - destruct Hagreed as [Hyes|Hyes]; [discriminate|]. eexists.
        exact (unlink_files_confirmed env pattern (Scope.mk ds c) Hnd Hdisk Hyes). }
    destruct Hfiles as (shown & Hfiles).
    unfold Cli.unlink. rewrite (with_dataset_existing env _ _ _ _ Hlook).
    unfold M.bind at 1. rewrite Hfiles.
    match goal with |- context [M.bind (Cli.echo "OK") ?k ?sc1] =>
      destruct (unlink_report verbose (Cli.files_to_unlink env ds pattern) sc1)
        as (out & Hreport)
    end.
    rewrite Hreport.
    cbn [Scope.dataset Scope.client Client.datasets Client.disk Client.stdout].
    eexists _, (Dataset.set_files ds
                  (filter (fun f => CliEnv.glob_match env pattern
                                      (DatasetFile.path f) <> true)
                     (Dataset.files ds))).
    split; [reflexivity|].
    cbn [Client.datasets Client.disk Dataset.files Dataset.set_files].
    split; [exact (alter_alt_Some _ _ _ _ Hlook)|].
    split; [|reflexivity].
    intros f. rewrite list_elem_of_filter.
    destruct (CliEnv.glob_match env pattern (DatasetFile.path f)); split;
      intros [? ?]; split; congruence.
  - intros -> Hno.
    unfold Cli.unlink. rewrite (with_dataset_existing env _ _ _ _ Hlook).
    unfold M.bind at 1.
    rewrite (unlink_files_declined env pattern (Scope.mk ds c) Hno).
    eexists. split; [reflexivity|]. split; reflexivity.
Qed.

Lemma unlink_removes_exactly_the_matches_witness :
  (exists c' ds',
     Cli.unlink (Example.cli_env true) false true "ds" "dir/*" Example.client
     = (inr tt, c')
     /\ Client.datasets c' = <["ds" := ds']> (Client.datasets Example.client)
     /\ (forall f,
           f ∈ Dataset.files ds'
           <-> f ∈ Dataset.files Example.ds
               /\ fnmatch "dir/*" (DatasetFile.path f) = false)
     /\ Client.disk c'
        = Client.disk Example.client ∖ list_to_set ["dir/x"; "dir/y"])
  /\ (exists c',
        Cli.unlink (Example.cli_env false) false true "ds" "dir/*" Example.client
        = (inl Abort, c')
        /\ Client.datasets c' = Client.datasets Example.client
        /\ Client.disk c' = Client.disk Example.client).
Proof.
  split.
  - apply (proj1 (unlink_removes_exactly_the_matches (Example.cli_env true)
                    Example.client "ds" "dir/*" Example.ds false true eq_refl)).
    + right. reflexivity.
    + by_decide.
    + apply Forall_forall. by_decide.
  - apply (proj2 (unlink_removes_exactly_the_matches (Example.cli_env false)
                    Example.client "ds" "dir/*" Example.ds false true eq_refl));
      reflexivity.
Defined.

(** ** Deleting a dataset *)

Lemma fnmatch_star path : fnmatch "*" path = true.
Proof.
  induction path as [|a path IH]; [reflexivity|].
  change (fnmatch "*" (String a path))
    with (fnmatch "" (String a path) || fnmatch "*" path).
  rewrite IH. apply orb_true_r.
Qed.

Section Deleting.

Variable env : CliEnv.t.
Variable c : Client.t.
Variable name : string.
Variable ds : Dataset.t.

Hypothesis stored : Client.datasets c !! name = Some ds.

Lemma delete_dataset_refuses sc :
  Dataset.files ds <> [] ->
  Cli.delete_dataset ds false sc
  = (inl (NonEmptyDatasetError (Dataset.name ds)), sc).
Proof.
  intros Hne. unfold Cli.delete_dataset.
  now rewrite bool_decide_eq_false_2 by assumption.
Qed.

Lemma delete_refused verbose :
  Dataset.files ds <> [] ->
  Cli.delete env name false verbose c
  = (inl (NonEmptyDatasetError (Dataset.name ds)), c).
Proof.
  intros Hne. unfold Cli.delete. rewrite (with_dataset_existing env _ _ _ _ stored).
  erewrite bind_inr by reflexivity.
  erewrite bind_inl by (now apply delete_dataset_refuses).
  now rewrite client_eta.
Qed.

Lemma star_matches_all :
  (forall path, CliEnv.glob_match env "*" path = true) ->
  Cli.files_to_unlink env ds "*" = map DatasetFile.path (Dataset.files ds).
Proof.
  intros Hstar. unfold Cli.files_to_unlink. f_equal.
  apply filter_all. intros f _. apply Hstar.
Qed.

Lemma nothing_left :
  (forall path, CliEnv.glob_match env "*" path = true) ->
  filter (fun f => CliEnv.glob_match env "*" (DatasetFile.path f) <> true)
    (Dataset.files ds) = [].
Proof.
  intros Hstar. induction (Dataset.files ds) as [|f files IH]; [reflexivity|].
  rewrite filter_cons_False; [exact IH|]. intros Hn. apply Hn, Hstar.
Qed.

Lemma delete_forced verbose :
  Dataset.name ds = name ->
  Dataset.files ds <> [] ->
  (forall path, CliEnv.glob_match env "*" path = true) ->
  NoDup (map DatasetFile.path (Dataset.files ds)) ->
  (forall f, f ∈ Dataset.files ds -> DatasetFile.path f ∈ Client.disk c) ->
  Cli.delete env name true verbose c
  = (inr tt,
     Client.mk (delete name (Client.datasets c))
       (Client.disk c ∖ list_to_set (map DatasetFile.path (Dataset.files ds)))
       (Client.stdout c
        ++ [ProgressBar "Removing files from dataset" (length (Dataset.files ds));
            Echo "OK"]
        ++ (if verbose
            then [Echo (newline +:+ "Deleted "
                          +:+ str_len (length (Dataset.files ds)) +:+ " file"
                          +:+ plural (length (Dataset.files ds)) +:+ ".")]
            else []))).
Proof.
  intros Hname Hne Hstar Hnd Hdisk.
  unfold Cli.delete. rewrite (with_dataset_existing env _ _ _ _ stored).
  erewrite bind_inr by reflexivity.
  erewrite bind_inr by reflexivity.
  erewrite bind_inr by reflexivity.
  cbn [Scope.dataset Scope.on_client Scope.client].
  rewrite bool_decide_eq_false_2 by assumption. simpl negb. cbv iota.
  erewrite bind_inr.
  2:{ erewrite bind_inr; [reflexivity|].
      apply unlink_files_unasked; assumption. }
  cbn [Scope.dataset Scope.on_client Scope.client Client.set_datasets
       Client.datasets Client.disk Client.stdout].
  rewrite (star_matches_all Hstar), (nothing_left Hstar), length_map, Hname.
  assert (Hlen : (0 <? length (Dataset.files ds))%nat = true).
  { destruct (Dataset.files ds); [congruence|reflexivity]. }
  cbv iota. rewrite Hlen.
  destruct verbose.
  - unfold M.bind, Cli.echo, M.modify, Cli.deleted_message.
    cbn [Scope.dataset Scope.on_client Scope.client Client.write
         Client.datasets Client.disk Client.stdout].
    rewrite alter_delete_eq, length_map. do 2 f_equal. now trace_norm.
  - unfold M.bind, Cli.echo, M.modify, M.ret.
    cbn [Scope.dataset Scope.on_client Scope.client Client.write
         Client.datasets Client.disk Client.stdout].
    rewrite alter_delete_eq. do 2 f_equal. now trace_norm.
Qed.

End Deleting.

(** C8: deleting a dataset that has files is refused with
    [NonEmptyDatasetError] when the force flag is not given, and nothing
    changes; with the force flag the dataset's entry is removed, all of its
    files are unlinked and deleted from the disk, and in verbose mode the
    number of deleted files is reported. *)
Theorem delete_refuses_or_removes_everything
    (env : CliEnv.t) (c : Client.t) (name : string) (ds : Dataset.t)
    (verbose : bool) :
  Client.datasets c !! name = Some ds ->
  Dataset.name ds = name ->
  Dataset.files ds <> [] ->
  Cli.delete env name false verbose c = (inl (NonEmptyDatasetError name), c)
  /\ ((forall path, CliEnv.glob_match env "*" path = true) ->
      NoDup (map DatasetFile.path (Dataset.files ds)) ->
      (forall f, f ∈ Dataset.files ds -> DatasetFile.path f ∈ Client.disk c) ->
      Cli.delete env name true verbose c
      = (inr tt,
         Client.mk (delete name (Client.datasets c))
           (Client.disk c ∖ list_to_set (map DatasetFile.path (Dataset.files ds)))
           (Client.stdout c
            ++ [ProgressBar "Removing files from dataset"
                  (length (Dataset.files ds));
                Echo "OK"]
            ++ (if verbose
                then [Echo (newline +:+ "Deleted "
                              +:+ str_len (length (Dataset.files ds))
                              +:+ " file"
                              +:+ plural (length (Dataset.files ds)) +:+ ".")]
                else [])))).
Proof.
  intros Hlook Hname Hne. split.
  - rewrite <- Hname at 2. now apply delete_refused.
  - intros Hstar Hnd Hdisk. now apply delete_forced.
Qed.

Lemma delete_refuses_or_removes_everything_witness :
  Cli.delete (Example.cli_env false) "ds" false true Example.client
  = (inl (NonEmptyDatasetError "ds"), Example.client)
  /\ Cli.delete (Example.cli_env false) "ds" true true Example.client
     = (inr tt,
        Client.mk (delete "ds" (Client.datasets Example.client))
          (Client.disk Example.client ∖ list_to_set ["a.txt"; "dir/x"; "dir/y"])
          [ProgressBar "Removing files from dataset" 3; Echo "OK";
           Echo (newline +:+ "Deleted 3 files.")]).
Proof.
  destruct (delete_refuses_or_removes_everything (Example.cli_env false)
              Example.client "ds" Example.ds true eq_refl eq_refl
              ltac:(discriminate))
    as [Hrefused Hforced].
  split; [exact Hrefused|]. apply Hforced.
  - exact fnmatch_star.
  - by_decide.
  - apply Forall_forall. by_decide.
Defined.

(** C10: for a dataset without files, [delete] in verbose mode reaches the
    report with the variable [unlinked] never assigned and fails with the
    unbound-variable error; "OK" was written, "No files to delete." is not. *)
Theorem delete_verbose_without_files_is_unbound
    (env : CliEnv.t) (c : Client.t) (name : string) (force : bool) :
  (forall ds, Client.datasets c !! name = Some ds -> Dataset.files ds = []) ->
  Cli.delete env name force true c
  = (inl (UnboundLocalError "unlinked"),
     Client.mk (Client.datasets c) (Client.disk c)
       (Client.stdout c ++ [Echo "OK"])).
Proof.
  intros Hfiles.
  assert (Hempty :
    Dataset.files (default (Cli.new_dataset env name) (Client.datasets c !! name))
    = []).
  { destruct (Client.datasets c !! name) as [ds|] eqn:E; [now apply Hfiles|].
    reflexivity. }
  unfold Cli.delete. erewrite with_dataset_raises.
  2:{ erewrite bind_inr by reflexivity.
      erewrite bind_inr.
      2:{ unfold Cli.delete_dataset.
          rewrite bool_decide_eq_true_2 by assumption.
          rewrite andb_false_r. reflexivity. }
      erewrite bind_inr by reflexivity.
      cbn [Scope.dataset Scope.on_client Scope.client].
      rewrite bool_decide_eq_true_2 by assumption. simpl negb. cbv iota.
      erewrite bind_inr by reflexivity.
      erewrite bind_inr by reflexivity.
      reflexivity. }
  reflexivity.
Qed.

Lemma delete_verbose_without_files_is_unbound_witness :
  Cli.delete (Example.cli_env false) "empty" true true Example.client
  = (inl (UnboundLocalError "unlinked"),
     Client.mk (Client.datasets Example.client) (Client.disk Example.client)
       [Echo "OK"]).
Proof.
  apply (delete_verbose_without_files_is_unbound (Example.cli_env false)
           Example.client "empty" true).
  intros ds Hlook. vm_compute in Hlook. now injection Hlook as <-.
Defined.

(** ** Listing the files of a dataset *)






(** * Further properties *)

(** ** Response status, continued *)

Lemma check_raises_outside response :
  Response.status_code response ∉ [200; 201; 202] ->
  exists e, _check_or_raise response = inl e.
Proof.
  intros Hin. unfold _check_or_raise.
  rewrite bool_decide_eq_false_2 by assumption. simpl.
  destruct (_ =? 401); [eauto|].
  destruct (_ =? 400); [|eauto].
  destruct (Response.json response) as [e|j]; simpl; [eauto|].
  destruct (getitem_errors j); simpl; eauto.
Qed.

(** X1: [_check_or_raise] returns normally for the status codes 200, 201
    and 202 and for no other: every other code, a 204 or a redirect
    included, raises. *)
Theorem check_passes_iff_200_201_202 (response : Response.t) :
  _check_or_raise response = inr tt
  <-> Response.status_code response ∈ [200; 201; 202].
Proof.
  split; [|apply check_success].
  intros Hok.
  destruct (decide (Response.status_code response ∈ [200; 201; 202]))
    as [Hin|Hout]; [exact Hin|].
  destruct (check_raises_outside _ Hout) as [e He]. congruence.
Qed.



(** ** Splitting and joining *)

Lemma concat_cons_cons sep (x y : string) l :
  String.concat sep (x :: y :: l) = x +:+ sep +:+ String.concat sep (y :: l).
Proof. reflexivity. Qed.

Lemma split_nonempty sep s : split sep s <> [].
Proof.
  destruct s as [|c s]; simpl; [discriminate|].
  destruct (Ascii.eqb c sep); [discriminate|].
  destruct (split sep s); discriminate.
Qed.

Lemma join_split sep s : String.concat (String sep "") (split sep s) = s.
Proof.
  induction s as [|c s IH]; [reflexivity|].
  simpl split. destruct (Ascii.eqb c sep) eqn:E.
  - apply Ascii.eqb_eq in E as ->.
    destruct (split sep s) as [|h t] eqn:Hs; [now destruct (split_nonempty sep s)|].
    rewrite concat_cons_cons, IH. reflexivity.
  - destruct (split sep s) as [|h t] eqn:Hs;
      [now destruct (split_nonempty sep s)|].
    destruct t as [|y t].
    + simpl in *. now subst.
    + rewrite concat_cons_cons in *. rewrite append_cons. now rewrite IH.
Qed.

Lemma split_parts_free sep s :
  Forall (fun part => occurs sep part = false) (split sep s).
Proof.
  induction s as [|c s IH]; [repeat constructor|].
  simpl split. destruct (Ascii.eqb c sep) eqn:E.
  - constructor; [reflexivity|exact IH].
  - destruct (split sep s) as [|h t]; [repeat constructor|].
    + simpl. rewrite Ascii.eqb_sym, E. reflexivity.
    + apply Forall_cons in IH as [Hh Ht]. constructor; [|exact Ht].
      simpl. now rewrite Ascii.eqb_sym, E.
Qed.

Lemma concat_last sep (l : list string) :
  l <> [] ->
  exists pre,
    String.concat sep l = pre +:+ last_item l
    /\ (pre = "" \/ exists p, pre = p +:+ sep).
Proof.
  induction l as [|x l IH]; [congruence|]. intros _.
  destruct l as [|y l].
  - exists "". split; [reflexivity|now left].
  - destruct (IH ltac:(discriminate)) as (pre & Hc & Hpre).
    exists (x +:+ sep +:+ pre). rewrite concat_cons_cons, Hc. split.
    + now rewrite !append_assoc.
    + right. destruct Hpre as [->|[p ->]].
      * exists x. now rewrite append_nil_r.
      * exists (x +:+ sep +:+ p). now rewrite !append_assoc.
Qed.

Lemma last_item_in (l : list string) : l <> [] -> last_item l ∈ l.
Proof.
  induction l as [|x l IH]; [congruence|]. intros _.
  destruct l as [|y l]; [left|]. right. now apply IH.
Qed.

Lemma occurs_app c a b : occurs c (a +:+ b) = occurs c a || occurs c b.
Proof.
  induction a as [|d a IH]; [reflexivity|].
  rewrite append_cons. simpl. now rewrite IH, orb_assoc.
Qed.

(** The last part of a split string: it is free of the separator, and the
    string is this part, alone or after a prefix that ends with the
    separator. *)
Lemma last_split sep s :
  occurs sep (last_item (split sep s)) = false
  /\ exists pre,
       s = pre +:+ last_item (split sep s)
       /\ (pre = "" \/ exists p, pre = p +:+ String sep "").
Proof.
  split.
  - pose proof (split_parts_free sep s) as Hfree.
    rewrite Forall_forall in Hfree. apply Hfree, last_item_in, split_nonempty.
  - destruct (concat_last (String sep "") (split sep s) (split_nonempty sep s))
      as (pre & Hc & Hpre).
    exists pre. now rewrite <- Hc, join_split.
Qed.

(** X3: the file type of a remote file is what follows the last dot of its
    name: it holds no dot, the name ends with it, and a name without a dot
    is its own type. *)
Theorem type_is_after_last_dot (file_ : ZenodoFileSerializer.t) :
  occurs "." (ZenodoFileSerializer.type file_) = false
  /\ (ZenodoFileSerializer.filename file_ = ZenodoFileSerializer.type file_
      \/ exists stem,
           ZenodoFileSerializer.filename file_
           = stem +:+ "." +:+ ZenodoFileSerializer.type file_)
  /\ (occurs "." (ZenodoFileSerializer.filename file_) = false ->
      ZenodoFileSerializer.type file_ = ZenodoFileSerializer.filename file_).
Proof.
  unfold ZenodoFileSerializer.type.
  destruct (last_split "." (ZenodoFileSerializer.filename file_))
    as (Hfree & pre & Hname & Hpre).
  split; [exact Hfree|].
  assert (Hcases :
    ZenodoFileSerializer.filename file_
    = last_item (split "." (ZenodoFileSerializer.filename file_))
    \/ exists stem,
         ZenodoFileSerializer.filename file_
         = stem +:+ "." +:+ last_item (split "." (ZenodoFileSerializer.filename file_))).
  { destruct Hpre as [->|[p ->]]; [now left|].
    right. exists p. now rewrite append_assoc in Hname. }
  split; [exact Hcases|].
  intros Hnodot. destruct Hcases as [<-|[stem Hstem]]; [reflexivity|].
  rewrite Hstem, occurs_app in Hnodot at 1.
  rewrite append_cons in Hnodot. simpl in Hnodot.
  now rewrite orb_true_r in Hnodot.
Qed.

(** X4: the record id taken from a URI is the last component of its path:
    it holds no slash, and the path is the record id alone or something
    that ends with a slash followed by the record id. *)
Theorem record_id_is_last_component (env : Env.t) (uri : string) :
  occurs "/" (ZenodoProvider.record_id env uri) = false
  /\ exists pre,
       Env.url_path env uri = pre +:+ ZenodoProvider.record_id env uri
       /\ (pre = "" \/ exists p, pre = p +:+ "/").
Proof.
  unfold ZenodoProvider.record_id.
  exact (last_split "/" (Env.url_path env uri)).
Qed.


(** ** Export, continued *)

Lemma bind_inr_inv {S A B} (m : M.t S A) (k : A -> M.t S B) s b s' :
  M.bind m k s = (inr b, s') ->
  exists a s1, m s = (inr a, s1) /\ k a s1 = (inr b, s').
Proof.
  unfold M.bind. destruct (m s) as [[e|a] s1]; [discriminate|]. eauto.
Qed.

Lemma lift_inr_inv {S A} (r : Result A) (s : S) a s1 :
  M.lift r s = (inr a, s1) -> r = inr a /\ s1 = s.
Proof. unfold M.lift. intros [= -> ->]. now split. Qed.

Lemma send_inr_inv env rq w response w1 :
  send env rq w = (inr response, w1) ->
  Env.server env (World.trace w) rq = inr response
  /\ w1 = World.log (Call rq) w.
Proof. unfold send. intros [= -> <-]. now split. Qed.

Lemma for_each_app {S A} (xs ys : list A) (body : A -> M.t S unit) s :
  M.for_each (xs ++ ys) body s
  = M.bind (M.for_each xs body) (fun _ => M.for_each ys body) s.
Proof.
  revert s. induction xs as [|x xs IH]; intros s; [reflexivity|].
  simpl. unfold M.bind.
  destruct (body x s) as [[e|[]] s1]; [reflexivity|]. rewrite IH. reflexivity.
Qed.

Section ExportReturns.

Variable env : Env.t.
Variable self : ZenodoExporter.t.
Variable deposition_id : Z.

Let upload (file_ : DatasetFile.t) : M.t World.t unit :=
  let* response :=
    ZenodoExporter.upload_file env self deposition_id
      (DatasetFile.full_path file_) in
  M.lift (_check_or_raise response) ;;
  M.modify (World.log (BarUpdate 1)).

Lemma upload_inr_inv file_ w w1 :
  upload file_ w = (inr tt, w1) ->
  DatasetFile.full_path file_ ∈ Env.readable env
  /\ w1 = World.mk (World._accept w)
            (World.trace w ++ upload_events env self deposition_id file_).
Proof.
  unfold upload, ZenodoExporter.upload_file, open_rb. intros H.
  destruct (bool_decide _) eqn:Hr.
  - apply bool_decide_eq_true_1 in Hr. split; [exact Hr|].
    apply bind_inr_inv in H as (response & w2 & Hsend & H).
    apply bind_inr_inv in Hsend as (file & w3 & [= <- <-] & Hsend).
    apply send_inr_inv in Hsend as [_ ->].
    apply bind_inr_inv in H as ([] & w4 & Hc & H).
    apply lift_inr_inv in Hc as [_ ->].
    unfold M.modify in H. injection H as <-.
    now rewrite world_log_log.
  - unfold M.bind, M.raise in H. discriminate.
Qed.



End ExportReturns.



Section ExportRequests.

Variable env : Env.t.
Variable self : ZenodoExporter.t.

(** The requests of an export, one by one. *)
Lemma export_requests_cases to_publish deposition_id rq :
  rq ∈ export_requests env self to_publish deposition_id ->
  rq = ZenodoExporter.new_deposition_request env self
  \/ (exists file_,
        file_ ∈ Dataset.files (ZenodoExporter.dataset self)
        /\ rq = ZenodoExporter.upload_file_request env self deposition_id
                  (DatasetFile.full_path file_) (DatasetFile.full_path file_))
  \/ rq = ZenodoExporter.attach_metadata_request env self deposition_id
            (ZenodoExporter.dataset self)
  \/ (to_publish = true
      /\ rq = ZenodoExporter.publish_request env self deposition_id).
Proof.
  rewrite export_requests_eq. intros Hin.
  apply elem_of_cons in Hin as [->|Hin]; [now left|]. right.
  apply elem_of_app in Hin as [Hin|Hin].
  - left. apply list_elem_of_fmap in Hin as (file_ & -> & Hin). now exists file_.
  - right. apply elem_of_cons in Hin as [->|Hin]; [now left|]. right.
    destruct to_publish; [|inversion Hin].
    apply list_elem_of_singleton in Hin as ->. now split.
Qed.

Lemma export_sent to_publish w rq :
  rq ∈ requests_of
         (events_since w (snd (ZenodoExporter.export env self to_publish w))) ->
  exists deposition_id, rq ∈ export_requests env self to_publish deposition_id.
Proof.
  destruct (export_follows env self to_publish w)
    as (deposition_id & evs & Ht & Hp & _).
  unfold events_since. rewrite Ht, drop_app_length. intros Hin. exists deposition_id.
  destruct Hp as [rest ->]. apply elem_of_app. now left.
Qed.

End ExportRequests.

(** X6: whatever the registry answers, every request [export] sends
    carries the access token as its only parameter and goes to the deposit
    API of the configured host, the sandbox if [ZENODO_USE_SANDBOX] is
    set. *)
Theorem export_requests_carry_token
    (env : Env.t) (self : ZenodoExporter.t) (to_publish : bool) (w : World.t)
    (rq : Request.t) :
  rq ∈ requests_of
         (events_since w (snd (ZenodoExporter.export env self to_publish w))) ->
  Request.params rq = [("access_token", ZenodoExporter.secret self)]
  /\ exists rest,
       Request.url rq
       = (if Env.use_sandbox env
          then "https://sandbox.zenodo.org/"
          else "https://zenodo.org/")
         +:+ "api/deposit/depositions" +:+ rest.
Proof.
  intros Hin. apply export_sent in Hin as (deposition_id & Hin).
  apply export_requests_cases in Hin
    as [->|[(file_ & _ & ->)|[->|[_ ->]]]];
    (split; [reflexivity|]);
    unfold ZenodoExporter.new_deposition_request,
      ZenodoExporter.upload_file_request,
      ZenodoExporter.attach_metadata_request, ZenodoExporter.publish_request,
      ZenodoExporter.new_deposit_url, ZenodoExporter.upload_file_url,
      ZenodoExporter.attach_metadata_url, ZenodoExporter.publish_url,
      ZenodoExporter.zenodo_url;
    destruct (Env.use_sandbox env); cbn [Request.url geturl];
    eexists; reflexivity.
Qed.

Lemma export_requests_carry_token_witness :
  Request.params (ZenodoExporter.new_deposition_request Example.env Example.exporter)
  = [("access_token", "token")].
Proof.
  apply (export_requests_carry_token Example.env Example.exporter true
           Example.world).
  vm_compute. left.
Defined.

(** X7: without [to_publish], [export] never asks the registry to publish,
    whatever deposition id and whatever answers it gets. *)
Theorem export_unpublished_never_publishes
    (env : Env.t) (self : ZenodoExporter.t) (w : World.t) (deposition_id : Z) :
  ZenodoExporter.publish_request env self deposition_id
  ∉ requests_of
      (events_since w (snd (ZenodoExporter.export env self false w))).
Proof.
  intros Hin. apply export_sent in Hin as (d & Hin).
  apply export_requests_cases in Hin
    as [H|[(file_ & _ & H)|[H|[H _]]]]; discriminate H.
Qed.



(** X9: a file that cannot be opened stops [export] with
    [FileNotFoundError] before any request for it: the deposition is
    created and holds the files listed before it, the progress bar is
    closed, and neither the later files nor the metadata are sent. *)
Theorem export_stops_at_unreadable_file
    (env : Env.t) (self : ZenodoExporter.t) (to_publish : bool) (w : World.t)
    (created : Response.t) (deposition_id : Z)
    (uploaded later : list DatasetFile.t) (file_ : DatasetFile.t) :
  (forall tr rq, accepted (Env.server env tr rq)) ->
  Env.server env (World.trace w) (ZenodoExporter.new_deposition_request env self)
  = inr created ->
  Response.body created = Some (JDeposition deposition_id) ->
  Dataset.files (ZenodoExporter.dataset self) = uploaded ++ file_ :: later ->
  (forall f, f ∈ uploaded -> DatasetFile.full_path f ∈ Env.readable env) ->
  DatasetFile.full_path file_ ∉ Env.readable env ->
  ZenodoExporter.export env self to_publish w
  = (inl (FileNotFoundError (DatasetFile.full_path file_)),
     World.mk (World._accept w)
       (World.trace w
        ++ [Call (ZenodoExporter.new_deposition_request env self);
            BarOpen (length (uploaded ++ file_ :: later))]
        ++ concat (map (upload_events env self deposition_id) uploaded)
        ++ [BarClose])).
Proof.
  intros Hacc Hs Hid Hfiles Hup Hmissing.
  unfold ZenodoExporter.export, ZenodoExporter.new_deposition.
  destruct (send_accepted env Hacc (ZenodoExporter.new_deposition_request env self) w)
    as (response & Hsend & Hc).
  assert (response = created) as -> by (unfold send in Hsend; congruence).
  erewrite bind_inr by exact Hsend.
  erewrite bind_inr by (unfold M.lift; now rewrite Hc).
  erewrite bind_inr by (unfold M.lift, Response.json; now rewrite Hid).
  erewrite bind_inr by reflexivity.
  erewrite bind_inl; [reflexivity|].
  unfold ZenodoExporter.upload_all, M.finally. rewrite Hfiles.
  erewrite bind_inr by reflexivity.
  rewrite for_each_app.
  erewrite bind_inr by (now apply (upload_loop_accepted env self deposition_id Hacc)).
  simpl M.for_each. erewrite bind_inl.
  2:{ erewrite bind_inl; [reflexivity|].
      unfold ZenodoExporter.upload_file, open_rb.
      rewrite bool_decide_eq_false_2 by assumption. reflexivity. }
  unfold World.log. simpl. f_equal. f_equal. now trace_norm.
Qed.

Lemma export_stops_at_unreadable_file_witness :
  ZenodoExporter.export Example.env
    (ZenodoExporter.mk
       (Dataset.mk "ds" "" [] [Example.a_txt; Example.file "gone.txt" 2] (UrlStr ""))
       "token")
    true Example.world
  = (inl (FileNotFoundError "gone.txt"),
     World.mk "application/json"
       ([Call (ZenodoExporter.new_deposition_request Example.env Example.exporter);
         BarOpen 2]
        ++ upload_events Example.env Example.exporter 7 Example.a_txt
        ++ [BarClose])).
Proof.
  apply (export_stops_at_unreadable_file Example.env
           (ZenodoExporter.mk
              (Dataset.mk "ds" "" [] [Example.a_txt; Example.file "gone.txt" 2]
                 (UrlStr ""))
              "token")
           true Example.world
           (Response.mk 201 "" (Some (JDeposition 7))) 7
           [Example.a_txt] [] (Example.file "gone.txt" 2)).
  - intros tr rq. unfold Example.env, Example.env_of, Example.friendly. simpl.
    destruct (Request.method rq); eexists;
      (split; [reflexivity|by_decide]).
  - reflexivity.
  - reflexivity.
  - reflexivity.
  - intros f Hf. apply list_elem_of_singleton in Hf as ->. by_decide.
  - by_decide.
Defined.

(** X10: the locations of depositions are told apart by the id:
    two depositions with the same public location, or with the same
    deposit location, are the same, and the public and the deposit location
    of a deposition differ. *)
Theorem locations_tell_depositions_apart (env : Env.t) (d1 d2 : Z) :
  (ZenodoExporter.published_at env d1 = ZenodoExporter.published_at env d2 ->
   d1 = d2)
  /\ (ZenodoExporter.deposit_at env d1 = ZenodoExporter.deposit_at env d2 ->
      d1 = d2)
  /\ ZenodoExporter.published_at env d1 <> ZenodoExporter.deposit_at env d2.
Proof.
  unfold ZenodoExporter.published_at, ZenodoExporter.deposit_at, str_int.
  repeat split.
  - intros [= H]. do 2 apply String.app_inj in H. now apply pretty_Z_inj in H.
  - intros [= H]. do 2 apply String.app_inj in H. now apply pretty_Z_inj in H.
  - intros [= H]. apply String.app_inj in H. discriminate H.
Qed.

Lemma locations_tell_depositions_apart_witness :
  ZenodoExporter.published_at Example.env 7
  <> ZenodoExporter.deposit_at Example.env 7.
Proof.
  apply (locations_tell_depositions_apart Example.env 7 7).
Defined.

(** ** The progress bar of an export *)

Lemma events_since_app w w' evs :
  World.trace w' = World.trace w ++ evs -> events_since w w' = evs.
Proof. intros Ht. unfold events_since. now rewrite Ht, drop_app_length. Qed.

Lemma bar_events_app evs1 evs2 :
  bar_events (evs1 ++ evs2) = bar_events evs1 ++ bar_events evs2.
Proof. apply filter_app. Qed.

Lemma bar_events_call rq evs : bar_events (Call rq :: evs) = bar_events evs.
Proof. reflexivity. Qed.

Section Progress.

Variable env : Env.t.
Variable self : ZenodoExporter.t.
Variable deposition_id : Z.

Let upload (file_ : DatasetFile.t) : M.t World.t unit :=
  let* response :=
    ZenodoExporter.upload_file env self deposition_id
      (DatasetFile.full_path file_) in
  M.lift (_check_or_raise response) ;;
  M.modify (World.log (BarUpdate 1)).

Lemma upload_loop_ticks files w :
  exists evs k,
    World.trace (snd (M.for_each files upload w)) = World.trace w ++ evs
    /\ bar_events evs = repeat (BarUpdate 1) k
    /\ (k <= length files)%nat
    /\ (error_of (fst (M.for_each files upload w)) = None -> k = length files).
Proof.
  revert w. induction files as [|file_ files IH]; intros w.
  - exists [], 0%nat. simpl. now rewrite app_nil_r.
  - simpl M.for_each. unfold M.bind.
    destruct (upload file_ w) as [[e|[]] w1] eqn:Hup.
    + assert (Hquiet : exists evs,
                World.trace w1 = World.trace w ++ evs /\ bar_events evs = []).
      { unfold upload, ZenodoExporter.upload_file, open_rb in Hup.
        destruct (bool_decide _).
        - unfold M.bind at 1 2, M.ret, send in Hup.
          destruct (Env.server env (World.trace w) _) as [e'|response].
          + injection Hup as _ <-. eexists. split; reflexivity.
          + unfold M.bind, M.lift in Hup.
            destruct (_check_or_raise response) as [e'|[]];
              [|discriminate Hup].
            injection Hup as _ <-. eexists. split; reflexivity.
        - injection Hup as _ <-. exists []. now rewrite app_nil_r. }
      destruct Hquiet as (evs & Ht & Hb).
      exists evs, 0%nat. simpl fst. simpl snd.
      split; [exact Ht|]. split; [exact Hb|]. split; [lia|].
      intros Hnone. simpl in Hnone. discriminate Hnone.
    + apply (upload_inr_inv env self deposition_id) in Hup as [_ ->].
      destruct (IH (World.mk (World._accept w)
                      (World.trace w ++ upload_events env self deposition_id file_)))
        as (evs & k & Ht & Hb & Hk & Hok).
      exists (upload_events env self deposition_id file_ ++ evs), (S k).
      rewrite Ht. simpl World.trace. repeat split.
      * now rewrite app_assoc.
      * rewrite bar_events_app, Hb. reflexivity.
      * simpl. lia.
      * intros Hnone. simpl. f_equal. now apply Hok.
Qed.

Lemma upload_all_ticks w :
  exists evs k,
    World.trace (snd (ZenodoExporter.upload_all env self deposition_id w))
    = World.trace w ++ evs
    /\ bar_events evs
       = BarOpen (length (Dataset.files (ZenodoExporter.dataset self)))
         :: repeat (BarUpdate 1) k ++ [BarClose]
    /\ (k <= length (Dataset.files (ZenodoExporter.dataset self)))%nat
    /\ (error_of (fst (ZenodoExporter.upload_all env self deposition_id w)) = None ->
        k = length (Dataset.files (ZenodoExporter.dataset self))).
Proof.
  unfold ZenodoExporter.upload_all, M.finally. fold upload.
  unfold M.bind at 1 2, M.modify at 1 2.
  destruct (upload_loop_ticks (Dataset.files (ZenodoExporter.dataset self))
              (World.log
                 (BarOpen (length (Dataset.files (ZenodoExporter.dataset self)))) w))
    as (evs & k & Ht & Hb & Hk & Hok).
  destruct (M.for_each _ upload _) as [res w1]. simpl in *.
  exists (BarOpen (length (Dataset.files (ZenodoExporter.dataset self)))
          :: evs ++ [BarClose]), k.
  rewrite Ht. repeat split; try assumption.
  - now trace_norm.
  - change (BarOpen ?n :: evs ++ [BarClose])
      with ([BarOpen n] ++ evs ++ [BarClose]).
    rewrite !bar_events_app, Hb. reflexivity.
Qed.

End Progress.

(** X11: the progress bar of an export is used in one way only, whatever
    the registry answers: either it is never opened (the deposition could
    not be created), or it is opened once with the number of files as
    total, advanced by one step at a time, at most once per file, and
    closed, also when an upload failed; if [export] returns, every file has
    its step. *)
Theorem export_progress_bar
    (env : Env.t) (self : ZenodoExporter.t) (to_publish : bool) (w : World.t) :
  bar_events (events_since w (snd (ZenodoExporter.export env self to_publish w)))
  = []
  \/ exists k,
       bar_events
         (events_since w (snd (ZenodoExporter.export env self to_publish w)))
       = BarOpen (length (Dataset.files (ZenodoExporter.dataset self)))
         :: repeat (BarUpdate 1) k ++ [BarClose]
       /\ (k <= length (Dataset.files (ZenodoExporter.dataset self)))%nat
       /\ (error_of (fst (ZenodoExporter.export env self to_publish w)) = None ->
           k = length (Dataset.files (ZenodoExporter.dataset self))).
Proof.
  remember (ZenodoExporter.export env self to_publish w) as out eqn:Hout.
  unfold ZenodoExporter.export, ZenodoExporter.new_deposition in Hout.
  unfold M.bind at 1, send at 1 in Hout.
  destruct (Env.server env (World.trace w) _) as [e|created];
    [left; subst out; now erewrite events_since_app by reflexivity|].
  unfold M.bind at 1, M.lift at 1 in Hout.
  destruct (_check_or_raise created) as [e|[]];
    [left; subst out; now erewrite events_since_app by reflexivity|].
  unfold M.bind at 1, M.lift at 1 in Hout.
  destruct (Response.json created) as [e|j];
    [left; subst out; now erewrite events_since_app by reflexivity|].
  unfold M.bind at 1, M.lift at 1 in Hout.
  destruct (getitem_id j) as [e|deposition_id];
    [left; subst out; now erewrite events_since_app by reflexivity|].
  right.
  destruct (upload_all_ticks env self deposition_id
              (World.log (Call (ZenodoExporter.new_deposition_request env self)) w))
    as (evs & k & Ht & Hb & Hk & Hok).
  exists k.
  assert (Hcalls : forall (calls : list Event) w',
      bar_events calls = [] ->
      World.trace w'
      = World.trace
          (snd (ZenodoExporter.upload_all env self deposition_id
                  (World.log
                     (Call (ZenodoExporter.new_deposition_request env self)) w)))
        ++ calls ->
      bar_events (events_since w w')
      = BarOpen (length (Dataset.files (ZenodoExporter.dataset self)))
        :: repeat (BarUpdate 1) k ++ [BarClose]).
  { intros calls w' Hq Hw'.
    rewrite (events_since_app w w'
               ((Call (ZenodoExporter.new_deposition_request env self) :: evs)
                ++ calls)).
    - now rewrite bar_events_app, bar_events_call, Hb, Hq, app_nil_r.
    - rewrite Hw', Ht. simpl. now trace_norm. }
  unfold M.bind at 1 in Hout.
  destruct (ZenodoExporter.upload_all env self deposition_id _)
    as [[e|[]] w2] eqn:Hup; simpl snd in Hcalls; simpl fst in Hok.
  { subst out. simpl. split; [|split; [exact Hk|discriminate]].
    apply (Hcalls [] _ eq_refl). symmetry. apply app_nil_r. }
  specialize (Hok eq_refl).
  split; [|now split].
  unfold ZenodoExporter.attach_metadata in Hout.
  unfold M.bind at 1, send at 1 in Hout.
  destruct (Env.server env (World.trace w2) _) as [e|r3];
    [subst out; eapply (Hcalls [Call _] _ eq_refl); reflexivity|].
  unfold M.bind at 1, M.lift at 1 in Hout.
  destruct (_check_or_raise r3) as [e|[]];
    [subst out; eapply (Hcalls [Call _] _ eq_refl); reflexivity|].
  destruct to_publish; [|subst out; eapply (Hcalls [Call _] _ eq_refl); reflexivity].
  unfold ZenodoExporter.publish_deposition in Hout.
  unfold M.bind at 1, send at 1 in Hout. simpl World.trace in Hout.
  destruct (Env.server env _ _) as [e|r4];
    [subst out; eapply (Hcalls [Call _; Call _] _ eq_refl); simpl;
     now rewrite <- app_assoc|].
  unfold M.bind, M.lift in Hout.
  destruct (_check_or_raise r4) as [e|[]];
    (subst out; eapply (Hcalls [Call _; Call _] _ eq_refl); simpl;
     now rewrite <- app_assoc).
Qed.

(** ** Lookups, continued *)

Lemma make_request_world env uri w :
  snd (ZenodoProvider.make_request env uri w)
  = World.log
      (Call (ZenodoProvider.records_request env (World._accept w) uri)) w.
Proof.
  rewrite make_request_reply.
  destruct (Env.server env _ _) as [e|response]; [reflexivity|].
  now destruct (_ =? 200).
Qed.

Lemma get_record_world env uri w :
  snd (ZenodoProvider.get_record env uri w)
  = World.log
      (Call (ZenodoProvider.records_request env (World._accept w) uri)) w.
Proof.
  unfold ZenodoProvider.get_record, M.bind at 1.
  pose proof (make_request_world env uri w) as Hw.
  destruct (ZenodoProvider.make_request env uri w) as [[e|response] w1];
    simpl in Hw; subst w1; [reflexivity|].
  unfold M.bind, M.lift.
  destruct (Response.json response) as [e|[]]; reflexivity.
Qed.

Lemma get_jsonld_world env self w :
  snd (Serializer.get_jsonld env self w)
  = World.log
      (Call (ZenodoProvider.records_request env "application/ld+json"
               (ZenodoRecordSerializer._uri self)))
      (World.set_accept "application/ld+json" w).
Proof.
  unfold Serializer.get_jsonld, M.bind at 1.
  unfold ZenodoProvider.accept_jsonld at 1, M.modify at 1.
  unfold M.bind at 1.
  pose proof (make_request_world env (ZenodoRecordSerializer._uri self)
                (World.set_accept "application/ld+json" w)) as Hw.
  destruct (ZenodoProvider.make_request env _ _) as [[e|response] w1];
    simpl in Hw; subst w1; [reflexivity|].
  unfold M.bind, M.lift.
  destruct (Response.json response) as [e|j]; reflexivity.
Qed.

Lemma as_dataset_world env self w :
  ZenodoRecordSerializer.files self <> [] ->
  snd (Serializer.as_dataset env self w)
  = World.log
      (Call (ZenodoProvider.records_request env "application/ld+json"
               (ZenodoRecordSerializer._uri self)))
      (World.set_accept "application/ld+json" w).
Proof.
  intros Hne. unfold Serializer.as_dataset.
  erewrite bind_inr by (unfold M.lift; now rewrite (get_files_nonempty _ Hne)).
  unfold M.bind at 1.
  pose proof (get_jsonld_world env self w) as Hw.
  destruct (Serializer.get_jsonld env self w) as [[e|[self' metadata]] w1];
    simpl in Hw; subst w1; [reflexivity|].
  unfold M.bind, M.lift.
  destruct (Dataset_from_jsonld metadata); reflexivity.
Qed.

(** X12: turning a record with files into a dataset sends one request, the
    JSON-LD lookup, whatever comes of it, and leaves the provider asking
    for JSON-LD: the next [get_record] of the same provider sends
    [Accept: application/ld+json], not [application/json]. *)
Theorem as_dataset_leaves_provider_on_jsonld
    (env : Env.t) (self : ZenodoRecordSerializer.t) (w : World.t) (uri : string) :
  ZenodoRecordSerializer.files self <> [] ->
  events_since w (snd (Serializer.as_dataset env self w))
  = [Call (ZenodoProvider.records_request env "application/ld+json"
             (ZenodoRecordSerializer._uri self))]
  /\ World._accept (snd (Serializer.as_dataset env self w))
     = "application/ld+json"
  /\ events_since (snd (Serializer.as_dataset env self w))
       (snd (ZenodoProvider.get_record env uri
               (snd (Serializer.as_dataset env self w))))
     = [Call (ZenodoProvider.records_request env "application/ld+json" uri)].
Proof.
  intros Hne. rewrite get_record_world, (as_dataset_world _ _ _ Hne).
  repeat split.
  - now apply events_since_app.
  - now apply events_since_app.
Qed.

Lemma as_dataset_leaves_provider_on_jsonld_witness :
  World._accept
    (snd (Serializer.as_dataset Example.env (Example.record [Example.remote_file])
            Example.world))
  = "application/ld+json".
Proof.
  apply (as_dataset_leaves_provider_on_jsonld Example.env
           (Example.record [Example.remote_file]) Example.world "").
  discriminate.
Defined.

(** X13: when the JSON-LD lookup of a record with files is answered with a
    status other than 200, [as_dataset] raises the record-not-found error
    of a lookup. *)
Theorem as_dataset_jsonld_not_found
    (env : Env.t) (self : ZenodoRecordSerializer.t) (w : World.t)
    (response : Response.t) :
  ZenodoRecordSerializer.files self <> [] ->
  Env.server env (World.trace w)
    (ZenodoProvider.records_request env "application/ld+json"
       (ZenodoRecordSerializer._uri self)) = inr response ->
  Response.status_code response <> 200 ->
  fst (Serializer.as_dataset env self w) = inl (LookupError "record not found").
Proof.
  intros Hne Hs Hc. unfold Serializer.as_dataset.
  erewrite bind_inr by (unfold M.lift; now rewrite (get_files_nonempty _ Hne)).
  erewrite bind_inl; [reflexivity|].
  unfold Serializer.get_jsonld.
  erewrite bind_inr by reflexivity.
  erewrite bind_inl; [reflexivity|].
  rewrite make_request_reply. simpl World.trace. simpl World._accept.
  rewrite Hs. apply Z.eqb_neq in Hc. now rewrite Hc.
Qed.

Lemma as_dataset_jsonld_not_found_witness :
  fst (Serializer.as_dataset
         (Example.env_of (fun _ _ => inr (Response.mk 404 "" None)))
         (Example.record [Example.remote_file]) Example.world)
  = inl (LookupError "record not found").
Proof.
  apply (as_dataset_jsonld_not_found
           (Example.env_of (fun _ _ => inr (Response.mk 404 "" None)))
           (Example.record [Example.remote_file]) Example.world
           (Response.mk 404 "" None)).
  - discriminate.
  - reflexivity.
  - discriminate.
Defined.




(** ** The dataset commands, continued *)

Lemma alter_existing {A} (m : gmap string A) (k : string) (x y : A) :
  m !! k = Some x -> alter (fun _ => y) k m = <[k := y]> m.
Proof.
  intros Hk. transitivity (alter (fun _ => y) k (<[k := x]> m)).
  - now rewrite insert_id.
  - apply alter_insert_eq.
Qed.

Section UnlinkRuns.

Variable env : CliEnv.t.
Variable c : Client.t.
Variable name pattern : string.
Variable ds : Dataset.t.

Hypothesis stored : Client.datasets c !! name = Some ds.

Let matched : list string := Cli.files_to_unlink env ds pattern.
Let question : string :=
  CliEnv.WARNING env +:+ Cli.prompt_text matched (Dataset.name ds).
Let kept : list DatasetFile.t :=
  filter (fun f => CliEnv.glob_match env pattern (DatasetFile.path f) <> true)
    (Dataset.files ds).

(** What [unlink_files] has shown when it goes on: the question, unless
    [yes]. *)
Let shown (yes : bool) : list Output := if yes then [] else [Confirm question].

Lemma unlink_files_asks yes :
  yes = true \/ CliEnv.answer env question = true ->
    Cli.unlink_files env yes pattern (Some (Cli.delete_confirm_prompt env))
      (Scope.mk ds c)
    = (M.for_each matched (fun file =>
         Cli.remove_file (Cli.new_file env file (Dataset.name ds))) ;;
       M.modify (Scope.on_client
                   (Client.write
                      (ProgressBar "Removing files from dataset" (length matched)))) ;;
       M.for_each matched Cli.Path_unlink ;;
       M.ret matched)
        (Scope.mk ds
           (Client.mk (Client.datasets c) (Client.disk c)
              (Client.stdout c ++ shown yes))).
Proof.
  intros Hagreed. unfold Cli.unlink_files.
  erewrite bind_inr by reflexivity. cbn [Scope.dataset].
  fold matched. destruct yes; simpl negb; cbv iota.
  - erewrite bind_inr by reflexivity. cbv iota.
    simpl shown. now rewrite app_nil_r, client_eta.
  - destruct Hagreed as [Hyes|Hyes]; [discriminate|].
    erewrite bind_inr.
    2:{ erewrite bind_inr; [reflexivity|].
        unfold Cli.delete_confirm_prompt, Cli.confirm.
        erewrite bind_inr by reflexivity. reflexivity. }
    fold question. rewrite Hyes. reflexivity.
Qed.

Lemma remove_then_unlink done (sc : Scope.t) :
  Scope.dataset sc = ds ->
  NoDup done ->
  (forall p, p ∈ done -> p ∈ Client.disk (Scope.client sc)) ->
  forall rest,
    matched = done ++ rest ->
    (M.for_each matched (fun file =>
       Cli.remove_file (Cli.new_file env file (Dataset.name ds))) ;;
     M.modify (Scope.on_client
                 (Client.write
                    (ProgressBar "Removing files from dataset" (length matched)))) ;;
     M.for_each matched Cli.Path_unlink ;;
     M.ret matched) sc
    = (M.for_each rest Cli.Path_unlink ;; M.ret matched)
        (Scope.mk (Dataset.set_files ds kept)
           (Client.mk (Client.datasets (Scope.client sc))
              (Client.disk (Scope.client sc) ∖ list_to_set done)
              (Client.stdout (Scope.client sc)
               ++ [ProgressBar "Removing files from dataset" (length matched)]))).
Proof.
  intros Hds Hnd Hdisk rest Hsplit.
  unfold M.bind at 1. rewrite remove_loop.
  unfold M.bind at 1, M.modify at 1.
  unfold M.bind at 1.
  replace (M.for_each matched Cli.Path_unlink) with
    (M.for_each (done ++ rest) Cli.Path_unlink) by now rewrite Hsplit.
  rewrite for_each_app. unfold M.bind at 1.
  rewrite unlink_loop; [| exact Hnd | exact Hdisk].
  cbn [Scope.dataset Scope.client Scope.on_client Client.write
       Client.datasets Client.disk Client.stdout].
  rewrite Hds.
  pose proof (filter_not_matched env pattern (Scope.mk ds c)) as Hkept.
  cbn [Scope.dataset] in Hkept. fold matched in Hkept. rewrite Hkept.
  reflexivity.
Qed.

Lemma unlink_run yes verbose :
  yes = true \/ CliEnv.answer env question = true ->
  NoDup matched ->
  (forall p, p ∈ matched -> p ∈ Client.disk c) ->
  Cli.unlink env yes verbose name pattern c
  = (inr tt,
     Client.mk (<[name := Dataset.set_files ds kept]> (Client.datasets c))
       (Client.disk c ∖ list_to_set matched)
       (Client.stdout c
        ++ shown yes
        ++ ProgressBar "Removing files from dataset" (length matched)
           :: Echo "OK"
           :: (if verbose
               then Echo (Cli.deleted_message matched) :: map Echo matched
               else []))).
Proof.
  intros Hagreed Hnd Hdisk. unfold Cli.unlink.
  rewrite (with_dataset_existing env name _ c ds stored).
  erewrite bind_inr.
  2:{ rewrite unlink_files_asks by exact Hagreed.
      erewrite remove_then_unlink with (done := matched) (rest := []);
        [reflexivity | reflexivity | exact Hnd | exact Hdisk
        | now rewrite app_nil_r]. }
  destruct verbose.
  - unfold M.bind, Cli.echo at 1 2, M.modify. rewrite echo_loop.
    cbn [Scope.dataset Scope.client Scope.on_client Client.write
         Client.datasets Client.disk Client.stdout].
    rewrite (alter_existing _ _ _ _ stored). trace_norm. reflexivity.
  - unfold M.bind, Cli.echo, M.modify, M.ret.
    cbn [Scope.dataset Scope.client Scope.on_client Client.write
         Client.datasets Client.disk Client.stdout].
    rewrite (alter_existing _ _ _ _ stored). trace_norm. reflexivity.
Qed.

Lemma unlink_breaks yes verbose done p rest :
  yes = true \/ CliEnv.answer env question = true ->
  matched = done ++ p :: rest ->
  NoDup done ->
  (forall q, q ∈ done -> q ∈ Client.disk c) ->
  p ∉ Client.disk c ->
  Cli.unlink env yes verbose name pattern c
  = (inl (FileNotFoundError p),
     Client.mk (Client.datasets c)
       (Client.disk c ∖ list_to_set done)
       (Client.stdout c
        ++ shown yes
        ++ [ProgressBar "Removing files from dataset" (length matched)])).
Proof.
  intros Hagreed Hsplit Hnd Hdisk Hp. unfold Cli.unlink.
  rewrite (with_dataset_existing env name _ c ds stored).
  erewrite bind_inl.
  2:{ rewrite unlink_files_asks by exact Hagreed.
      erewrite remove_then_unlink with (done := done) (rest := p :: rest);
        [| reflexivity | exact Hnd | exact Hdisk | exact Hsplit].
      simpl M.for_each. unfold M.bind, Cli.Path_unlink at 1.
      cbn [Scope.client Client.disk].
      rewrite bool_decide_eq_false_2; [reflexivity|].
      intros Hin. apply elem_of_difference in Hin as [Hin _]. exact (Hp Hin). }
  cbn [Scope.client Client.datasets Client.disk Client.stdout].
  now trace_norm.
Qed.

End UnlinkRuns.

Lemma matched_of_kept env pattern ds :
  Cli.files_to_unlink env
    (Dataset.set_files ds
       (filter (fun f => CliEnv.glob_match env pattern (DatasetFile.path f) <> true)
          (Dataset.files ds)))
    pattern = [].
Proof.
  unfold Cli.files_to_unlink. cbn [Dataset.set_files Dataset.files].
  induction (Dataset.files ds) as [|f files IH]; [reflexivity|].
  destruct (decide (CliEnv.glob_match env pattern (DatasetFile.path f) = true))
    as [Hm|Hm].
  - rewrite filter_cons_False by (intros Hn; exact (Hn Hm)). exact IH.
  - rewrite filter_cons_True by exact Hm.
    rewrite filter_cons_False by exact Hm. exact IH.
Qed.

Lemma kept_without_match env pattern ds :
  Cli.files_to_unlink env ds pattern = [] ->
  filter (fun f => CliEnv.glob_match env pattern (DatasetFile.path f) <> true)
    (Dataset.files ds) = Dataset.files ds.
Proof.
  unfold Cli.files_to_unlink. intros Hnone.
  induction (Dataset.files ds) as [|f files IH]; [reflexivity|].
  destruct (decide (CliEnv.glob_match env pattern (DatasetFile.path f) = true))
    as [Hm|Hm].
  - rewrite filter_cons_True in Hnone by exact Hm. discriminate.
  - rewrite filter_cons_False in Hnone by exact Hm.
    rewrite filter_cons_True by exact Hm. f_equal. now apply IH.
Qed.

Lemma unlink_no_match env c name pattern ds yes verbose :
  Client.datasets c !! name = Some ds ->
  Cli.files_to_unlink env ds pattern = [] ->
  yes = true
  \/ CliEnv.answer env
       (CliEnv.WARNING env +:+ Cli.prompt_text [] (Dataset.name ds)) = true ->
  Cli.unlink env yes verbose name pattern c
  = (inr tt,
     Client.mk (Client.datasets c) (Client.disk c)
       (Client.stdout c
        ++ (if yes then []
            else [Confirm (CliEnv.WARNING env
                           +:+ Cli.prompt_text [] (Dataset.name ds))])
        ++ ProgressBar "Removing files from dataset" 0
           :: Echo "OK"
           :: (if verbose then [Echo (Cli.deleted_message [])] else []))).
Proof.
  intros Hlook Hnone Hagreed.
  rewrite (unlink_run env c name pattern ds Hlook yes verbose); rewrite Hnone.
  - rewrite (kept_without_match _ _ _ Hnone), set_files_same.
    rewrite (insert_id _ _ _ Hlook).
    change (list_to_set []) with (∅ : gset string).
    rewrite difference_empty_L. now destruct verbose.
  - exact Hagreed.
  - constructor.
  - intros p Hp. now apply elem_of_nil in Hp.
Qed.

(** X15: once the user has agreed, [unlink] succeeds and writes to the
    terminal, in this order: the question (unless the yes flag is given),
    the progress bar over the matched files, [OK], and in verbose mode the
    number of deleted files followed by the matched paths in the order of
    the file index. *)
Theorem unlink_output_lists_matches
    (env : CliEnv.t) (c : Client.t) (name pattern : string) (ds : Dataset.t)
    (yes verbose : bool) :
  let matched := Cli.files_to_unlink env ds pattern in
  let question :=
    CliEnv.WARNING env +:+ Cli.prompt_text matched (Dataset.name ds) in
  Client.datasets c !! name = Some ds ->
  yes = true \/ CliEnv.answer env question = true ->
  NoDup matched ->
  (forall p, p ∈ matched -> p ∈ Client.disk c) ->
  exists c',
    Cli.unlink env yes verbose name pattern c = (inr tt, c')
    /\ Client.stdout c'
       = Client.stdout c
         ++ (if yes then [] else [Confirm question])
         ++ [ProgressBar "Removing files from dataset" (length matched);
             Echo "OK"]
         ++ (if verbose
             then Echo (newline +:+ "Deleted " +:+ str_len (length matched)
                          +:+ " file" +:+ plural (length matched) +:+ ".")
                  :: map Echo
                       (map DatasetFile.path
                          (filter
                             (fun f => CliEnv.glob_match env pattern
                                         (DatasetFile.path f) = true)
                             (Dataset.files ds)))
             else []).
Proof.
  intros matched question Hlook Hagreed Hnd Hdisk.
  eexists. split.
  - apply (unlink_run env c name pattern ds Hlook yes verbose Hagreed Hnd Hdisk).
  - reflexivity.
Qed.

Lemma unlink_output_lists_matches_witness :
  exists c',
    Cli.unlink (Example.cli_env true) false true "ds" "dir/*" Example.client
    = (inr tt, c')
    /\ Client.stdout c'
       = [Confirm ("Warning: You are about to delete 2 files from ds dataset."
                     +:+ newline +:+ newline +:+ "Do you wish to proceed?");
          ProgressBar "Removing files from dataset" 2;
          Echo "OK";
          Echo (newline +:+ "Deleted 2 files.");
          Echo "dir/x";
          Echo "dir/y"].
Proof.
  apply (unlink_output_lists_matches (Example.cli_env true) Example.client
           "ds" "dir/*" Example.ds false true).
  - reflexivity.
  - right. reflexivity.
  - by_decide.
  - intros p Hp. vm_compute in Hp.
    repeat (apply elem_of_cons in Hp as [->|Hp]; [by_decide|]).
    now apply elem_of_nil in Hp.
Defined.

(** X16: when a matched file is missing on the disk, [unlink] raises
    [FileNotFoundError] for it after the matched files before it have been
    deleted from the disk; the stored datasets are as before, so those
    deleted files are still in the file index, and neither [OK] nor a
    report is written. *)
Theorem unlink_stops_at_missing_file
    (env : CliEnv.t) (c : Client.t) (name pattern : string) (ds : Dataset.t)
    (yes verbose : bool) (done : list string) (p : string) (rest : list string) :
  let matched := Cli.files_to_unlink env ds pattern in
  let question :=
    CliEnv.WARNING env +:+ Cli.prompt_text matched (Dataset.name ds) in
  Client.datasets c !! name = Some ds ->
  yes = true \/ CliEnv.answer env question = true ->
  matched = done ++ p :: rest ->
  NoDup done ->
  (forall q, q ∈ done -> q ∈ Client.disk c) ->
  p ∉ Client.disk c ->
  exists c',
    Cli.unlink env yes verbose name pattern c = (inl (FileNotFoundError p), c')
    /\ Client.datasets c' = Client.datasets c
    /\ Client.disk c' = Client.disk c ∖ list_to_set done
    /\ Client.stdout c'
       = Client.stdout c
         ++ (if yes then [] else [Confirm question])
         ++ [ProgressBar "Removing files from dataset" (length matched)].
Proof.
  intros matched question Hlook Hagreed Hsplit Hnd Hdisk Hp.
  eexists. split.
  - apply (unlink_breaks env c name pattern ds Hlook yes verbose done p rest
             Hagreed Hsplit Hnd Hdisk Hp).
  - repeat split.
Qed.

Lemma unlink_stops_at_missing_file_witness :
  exists c',
    Cli.unlink (Example.cli_env true) true true "ds" "*" Example2.partial_client
    = (inl (FileNotFoundError "dir/x"), c')
    /\ Client.datasets c' = Client.datasets Example2.partial_client
    /\ Client.disk c' = Client.disk Example2.partial_client ∖ list_to_set ["a.txt"]
    /\ Client.stdout c' = [ProgressBar "Removing files from dataset" 3].
Proof.
  apply (unlink_stops_at_missing_file (Example.cli_env true)
           Example2.partial_client "ds" "*" Example.ds true true
           ["a.txt"] "dir/x" ["dir/y"]).
  - reflexivity.
  - left. reflexivity.
  - reflexivity.
  - by_decide.
  - intros q Hq.
    apply elem_of_cons in Hq as [->|Hq]; [by_decide|].
    now apply elem_of_nil in Hq.
  - by_decide.
Defined.

(** X17: a successful [unlink] leaves no file matching the pattern in the
    stored dataset, so running it again with the same pattern succeeds
    without touching the stored datasets or the disk. *)
Theorem unlink_again_removes_nothing
    (env : CliEnv.t) (c : Client.t) (name pattern : string) (ds : Dataset.t)
    (yes verbose verbose' : bool) :
  let matched := Cli.files_to_unlink env ds pattern in
  let question :=
    CliEnv.WARNING env +:+ Cli.prompt_text matched (Dataset.name ds) in
  Client.datasets c !! name = Some ds ->
  yes = true \/ CliEnv.answer env question = true ->
  NoDup matched ->
  (forall p, p ∈ matched -> p ∈ Client.disk c) ->
  exists c' ds' c'',
    Cli.unlink env yes verbose name pattern c = (inr tt, c')
    /\ Client.datasets c' !! name = Some ds'
    /\ Cli.files_to_unlink env ds' pattern = []
    /\ Cli.unlink env true verbose' name pattern c' = (inr tt, c'')
    /\ Client.datasets c'' = Client.datasets c'
    /\ Client.disk c'' = Client.disk c'.
Proof.
  intros matched question Hlook Hagreed Hnd Hdisk.
  eexists. eexists. eexists. split.
  { apply (unlink_run env c name pattern ds Hlook yes verbose Hagreed Hnd Hdisk). }
  split.
  { cbn [Client.datasets]. apply lookup_insert_eq. }
  split.
  { apply matched_of_kept. }
  split.
  { apply unlink_no_match with (ds := Dataset.set_files ds
      (filter (fun f => CliEnv.glob_match env pattern (DatasetFile.path f) <> true)
         (Dataset.files ds))).
    - cbn [Client.datasets]. apply lookup_insert_eq.
    - apply matched_of_kept.
    - now left. }
  split; reflexivity.
Qed.

Lemma unlink_again_removes_nothing_witness :
  exists c' ds' c'',
    Cli.unlink (Example.cli_env true) true false "ds" "dir/*" Example.client
    = (inr tt, c')
    /\ Client.datasets c' !! "ds" = Some ds'
    /\ Cli.files_to_unlink (Example.cli_env true) ds' "dir/*" = []
    /\ Cli.unlink (Example.cli_env true) true false "ds" "dir/*" c' = (inr tt, c'')
    /\ Client.datasets c'' = Client.datasets c'
    /\ Client.disk c'' = Client.disk c'.
Proof.
  apply (unlink_again_removes_nothing (Example.cli_env true) Example.client
           "ds" "dir/*" Example.ds true false false).
  - reflexivity.
  - left. reflexivity.
  - by_decide.
  - intros p Hp. vm_compute in Hp.
    repeat (apply elem_of_cons in Hp as [->|Hp]; [by_decide|]).
    now apply elem_of_nil in Hp.
Defined.

(** X18: when no file of the dataset matches the pattern, [unlink] still
    asks (about 0 files) unless the yes flag is given; on a yes it succeeds,
    changes neither the stored datasets nor the disk and reports 0 deleted
    files in verbose mode, and on a no it aborts. *)
Theorem unlink_without_match
    (env : CliEnv.t) (c : Client.t) (name pattern : string) (ds : Dataset.t)
    (yes verbose : bool) :
  let question :=
    CliEnv.WARNING env +:+ "You are about to delete 0 files from "
      +:+ Dataset.name ds +:+ " dataset." +:+ newline +:+ newline
      +:+ "Do you wish to proceed?" in
  Client.datasets c !! name = Some ds ->
  (forall f, f ∈ Dataset.files ds ->
             CliEnv.glob_match env pattern (DatasetFile.path f) = false) ->
  Cli.unlink env yes verbose name pattern c
  = if yes || CliEnv.answer env question then
      (inr tt,
       Client.mk (Client.datasets c) (Client.disk c)
         (Client.stdout c
          ++ (if yes then [] else [Confirm question])
          ++ [ProgressBar "Removing files from dataset" 0; Echo "OK"]
          ++ (if verbose then [Echo (newline +:+ "Deleted 0 files.")] else [])))
    else
      (inl Abort,
       Client.mk (Client.datasets c) (Client.disk c)
         (Client.stdout c ++ [Confirm question])).
Proof.
  intros question Hlook Hnone.
  assert (Hmatched : Cli.files_to_unlink env ds pattern = []).
  { unfold Cli.files_to_unlink.
    induction (Dataset.files ds) as [|f files IH]; [reflexivity|].
    rewrite filter_cons_False.
    - apply IH. intros g Hg. apply Hnone. now right.
    - rewrite (Hnone f) by now left. discriminate. }
  assert (Hq : CliEnv.WARNING env +:+ Cli.prompt_text [] (Dataset.name ds)
               = question) by reflexivity.
  destruct (yes || CliEnv.answer env question) eqn:Hagreed.
  - rewrite (unlink_no_match env c name pattern ds yes verbose Hlook Hmatched).
    + rewrite Hq. reflexivity.
    + rewrite Hq. apply orb_true_iff in Hagreed as [->| ->]; [now left|now right].
  - apply orb_false_iff in Hagreed as [-> Hno].
    unfold Cli.unlink. rewrite (with_dataset_existing env name _ c ds Hlook).
    erewrite bind_inl.
    2:{ apply unlink_files_declined. cbn [Scope.dataset].
        rewrite Hmatched, Hq. exact Hno. }
    cbn [Scope.dataset Scope.client Scope.on_client Client.write
         Client.datasets Client.disk Client.stdout].
    now rewrite Hmatched, Hq.
Qed.

Lemma unlink_without_match_witness :
  Cli.unlink (Example.cli_env false) false true "ds" "*.csv" Example.client
  = (inl Abort,
     Client.mk (Client.datasets Example.client) (Client.disk Example.client)
       [Confirm ("Warning: You are about to delete 0 files from ds dataset."
                   +:+ newline +:+ newline +:+ "Do you wish to proceed?")]).
Proof.
  apply (unlink_without_match (Example.cli_env false) Example.client
           "ds" "*.csv" Example.ds false true).
  - reflexivity.
  - intros f Hf. vm_compute in Hf.
    repeat (apply elem_of_cons in Hf as [->|Hf]; [reflexivity|]).
    now apply elem_of_nil in Hf.
Defined.

(** X19: deleting a dataset without files, not in verbose mode, succeeds
    with or without the force flag: the dataset's entry is removed, the
    disk is left alone and only [OK] is written. *)
Theorem delete_empty_dataset
    (env : CliEnv.t) (c : Client.t) (name : string) (ds : Dataset.t)
    (force : bool) :
  Client.datasets c !! name = Some ds ->
  Dataset.name ds = name ->
  Dataset.files ds = [] ->
  Cli.delete env name force false c
  = (inr tt,
     Client.mk (delete name (Client.datasets c)) (Client.disk c)
       (Client.stdout c ++ [Echo "OK"])).
Proof.
  intros Hlook Hname Hempty. unfold Cli.delete.
  rewrite (with_dataset_existing env name _ c ds Hlook).
  erewrite bind_inr by reflexivity. cbn [Scope.dataset].
  unfold Cli.delete_dataset.
  rewrite bool_decide_eq_true_2 by exact Hempty.
  rewrite andb_false_r. cbv iota.
  erewrite bind_inr by reflexivity.
  erewrite bind_inr by reflexivity.
  cbn [Scope.dataset Scope.on_client].
  rewrite bool_decide_eq_true_2 by exact Hempty.
  simpl negb. cbv iota.
  erewrite bind_inr by reflexivity.
  erewrite bind_inr by reflexivity.
  unfold M.ret.
  cbn [Scope.dataset Scope.client Scope.on_client Client.write
       Client.set_datasets Client.datasets Client.disk Client.stdout].
  rewrite Hname, alter_delete_eq. reflexivity.
Qed.

Lemma delete_empty_dataset_witness :
  Cli.delete (Example.cli_env true) "empty" false false Example.client
  = (inr tt,
     Client.mk (delete "empty" (Client.datasets Example.client))
       (Client.disk Example.client) [Echo "OK"]).
Proof.
  apply (delete_empty_dataset (Example.cli_env true) Example.client "empty"
           Example.empty_ds false); reflexivity.
Defined.

(** ** What the commands leave alone *)

Section Tame.

Variable env : CliEnv.t.

(** From [sc] to [sc'] no file appeared on the disk and no question was
    asked. *)
Let tame (sc sc' : Scope.t) : Prop :=
  Client.disk (Scope.client sc') ⊆ Client.disk (Scope.client sc)
  /\ exists out,
       Client.stdout (Scope.client sc') = Client.stdout (Scope.client sc) ++ out
       /\ asks out = [].

Let tamely {A} (m : M.t Scope.t A) : Prop := forall sc, tame sc (snd (m sc)).

Lemma tame_refl sc : tame sc sc.
Proof.
  split; [reflexivity|]. exists []. now rewrite app_nil_r.
Qed.

Lemma tame_same sc sc' :
  Client.disk (Scope.client sc') = Client.disk (Scope.client sc) ->
  Client.stdout (Scope.client sc') = Client.stdout (Scope.client sc) ->
  tame sc sc'.
Proof.
  intros Hd Ho. split; [now rewrite Hd|]. exists []. now rewrite app_nil_r.
Qed.

Lemma tame_trans sc1 sc2 sc3 : tame sc1 sc2 -> tame sc2 sc3 -> tame sc1 sc3.
Proof.
  intros [Hd1 (out1 & Ho1 & Ha1)] [Hd2 (out2 & Ho2 & Ha2)]. split.
  - etransitivity; eassumption.
  - exists (out1 ++ out2). split.
    + now rewrite Ho2, Ho1, app_assoc.
    + unfold asks in *. now rewrite omap_app, Ha1, Ha2.
Qed.

Lemma tamely_bind {A B} (m : M.t Scope.t A) (k : A -> M.t Scope.t B) :
  tamely m -> (forall a, tamely (k a)) -> tamely (M.bind m k).
Proof.
  intros Hm Hk sc. unfold M.bind. specialize (Hm sc).
  destruct (m sc) as [[e|a] sc1]; [exact Hm|].
  eapply tame_trans; [exact Hm|apply Hk].
Qed.

Lemma tamely_ret {A} (a : A) : tamely (M.ret a).
Proof. intros sc. apply tame_refl. Qed.

Lemma tamely_raise {A} e : tamely (M.raise e : M.t Scope.t A).
Proof. intros sc. apply tame_refl. Qed.

Lemma tamely_the_dataset : tamely Cli.the_dataset.
Proof. intros sc. apply tame_refl. Qed.

Lemma tamely_write o :
  asks [o] = [] -> tamely (M.modify (Scope.on_client (Client.write o))).
Proof.
  intros Ho sc. split; [reflexivity|]. now exists [o].
Qed.

Lemma tamely_echo text : tamely (Cli.echo text).
Proof. now apply tamely_write. Qed.

Lemma tamely_remove_file file : tamely (Cli.remove_file file).
Proof. intros sc. now apply tame_same. Qed.

Lemma tamely_delete_dataset dataset force :
  tamely (Cli.delete_dataset dataset force).
Proof.
  intros sc. unfold Cli.delete_dataset.
  destruct (negb force && negb (bool_decide (Dataset.files dataset = [])));
    now apply tame_same.
Qed.

Lemma tamely_Path_unlink file : tamely (Cli.Path_unlink file).
Proof.
  intros sc. unfold Cli.Path_unlink.
  destruct (bool_decide (file ∈ Client.disk (Scope.client sc)));
    [|apply tame_refl].
  split.
  - simpl. apply subseteq_difference_l. reflexivity.
  - exists []. simpl. now rewrite app_nil_r.
Qed.

Lemma tamely_for_each {A} (xs : list A) (body : A -> M.t Scope.t unit) :
  (forall x, tamely (body x)) -> tamely (M.for_each xs body).
Proof.
  intros Hbody. induction xs as [|x xs IH]; [apply tamely_ret|].
  simpl. apply tamely_bind; [apply Hbody|]. intros _. exact IH.
Qed.

(** [unlink_files] when it does not ask: the yes flag is given or there is
    no prompt. *)
Lemma tamely_unlink_files yes glob prompt :
  yes = true \/ prompt = None -> tamely (Cli.unlink_files env yes glob prompt).
Proof.
  intros Hquiet. unfold Cli.unlink_files.
  apply tamely_bind; [apply tamely_the_dataset|]. intros dataset.
  apply tamely_bind.
  { destruct Hquiet as [->| ->]; [|apply tamely_ret].
    destruct prompt; apply tamely_ret. }
  intros [|]; [apply tamely_raise|].
  apply tamely_bind.
  { apply tamely_for_each. intros file. apply tamely_remove_file. }
  intros _. apply tamely_bind; [now apply tamely_write|].
  intros _. apply tamely_bind.
  { apply tamely_for_each. intros file. apply tamely_Path_unlink. }
  intros _. apply tamely_ret.
Qed.

Lemma tamely_with_dataset {A} name (block : M.t Scope.t A) c :
  tamely block ->
  Client.disk (snd (Cli.with_dataset env name block c)) ⊆ Client.disk c
  /\ exists out,
       Client.stdout (snd (Cli.with_dataset env name block c))
       = Client.stdout c ++ out
       /\ asks out = [].
Proof.
  intros Hblock. unfold Cli.with_dataset.
  match goal with
  | |- context [block ?sc0] =>
      specialize (Hblock sc0); destruct (block sc0) as [[e|a] sc]
  end; exact Hblock.
Qed.

Lemma delete_tame name force verbose c :
  Client.disk (snd (Cli.delete env name force verbose c)) ⊆ Client.disk c
  /\ exists out,
       Client.stdout (snd (Cli.delete env name force verbose c))
       = Client.stdout c ++ out
       /\ asks out = [].
Proof.
  apply tamely_with_dataset.
  apply tamely_bind; [apply tamely_the_dataset|]. intros dataset.
  apply tamely_bind; [apply tamely_delete_dataset|]. intros _.
  apply tamely_bind; [apply tamely_the_dataset|]. intros dataset'.
  apply tamely_bind.
  { destruct (negb (bool_decide (Dataset.files dataset' = [])));
      [|apply tamely_ret].
    apply tamely_bind; [apply tamely_unlink_files; now left|].
    intros unlinked. apply tamely_ret. }
  intros unlinked. apply tamely_bind; [apply tamely_echo|]. intros _.
  destruct verbose; [|apply tamely_ret].
  destruct unlinked as [unlinked|]; [|apply tamely_raise].
  destruct (0 <? length unlinked)%nat; apply tamely_echo.
Qed.

Lemma unlink_yes_tame verbose name pattern c :
  Client.disk (snd (Cli.unlink env true verbose name pattern c)) ⊆ Client.disk c
  /\ exists out,
       Client.stdout (snd (Cli.unlink env true verbose name pattern c))
       = Client.stdout c ++ out
       /\ asks out = [].
Proof.
  apply tamely_with_dataset.
  apply tamely_bind; [apply tamely_unlink_files; now left|]. intros unlinked.
  apply tamely_bind; [apply tamely_echo|]. intros _.
  destruct verbose; [|apply tamely_ret].
  apply tamely_bind; [apply tamely_echo|]. intros _.
  apply tamely_for_each. intros file. apply tamely_echo.
Qed.

Lemma ls_files_tame name c :
  Client.disk (snd (Cli.ls_files env name c)) ⊆ Client.disk c
  /\ exists out,
       Client.stdout (snd (Cli.ls_files env name c)) = Client.stdout c ++ out
       /\ asks out = [].
Proof.
  apply tamely_with_dataset.
  apply tamely_bind; [apply tamely_the_dataset|]. intros dataset.
  now apply tamely_write.
Qed.

End Tame.

(** X20: however they end, [delete], [unlink] with the yes flag and
    [ls_files] never ask the user a question and never put a file on the
    disk: what they write only extends the terminal output, without a
    confirmation prompt in it, and the files on disk afterwards were there
    before. *)
Theorem quiet_commands_never_ask
    (env : CliEnv.t) (c : Client.t) (name pattern : string)
    (force verbose : bool) (run : M.t Client.t unit) :
  run ∈ [Cli.delete env name force verbose;
         Cli.unlink env true verbose name pattern;
         Cli.ls_files env name] ->
  Client.disk (snd (run c)) ⊆ Client.disk c
  /\ exists out,
       Client.stdout (snd (run c)) = Client.stdout c ++ out
       /\ asks out = [].
Proof.
  intros Hrun.
  apply elem_of_cons in Hrun as [->|Hrun]; [apply delete_tame|].
  apply elem_of_cons in Hrun as [->|Hrun]; [apply unlink_yes_tame|].
  apply elem_of_cons in Hrun as [->|Hrun]; [apply ls_files_tame|].
  now apply elem_of_nil in Hrun.
Qed.

Lemma quiet_commands_never_ask_witness :
  Client.disk (snd (Cli.unlink (Example.cli_env false) true true "ds" "*"
                      Example2.partial_client))
  ⊆ Client.disk Example2.partial_client
  /\ exists out,
       Client.stdout (snd (Cli.unlink (Example.cli_env false) true true "ds" "*"
                             Example2.partial_client))
       = Client.stdout Example2.partial_client ++ out
       /\ asks out = [].
Proof.
  apply (quiet_commands_never_ask (Example.cli_env false)
           Example2.partial_client "ds" "*" false true).
  right. left.
Defined.

(** ** The client of [renku/cli/zenodo.py] *)

Lemma occurs_replace_char old new s :
  new <> old -> occurs old (replace_char old new s) = false.
Proof.
  intros Hne. induction s as [|c s IH]; [reflexivity|].
  simpl. rewrite IH, orb_false_r.
  destruct (Ascii.eqb c old) eqn:Hc.
  - apply Ascii.eqb_neq. intros Heq. now apply Hne.
  - apply Ascii.eqb_neq. apply Ascii.eqb_neq in Hc. congruence.
Qed.

Lemma get_records_run env self params requested :
  Zenodo._get_records env self params requested
  = (match SearchEnv.get_json env requested (Zenodo.records_url env self params) with
     | inr (Hits hits) => inr (map (Record.mk BASE_URL) hits)
     | inr NoHits => inl (KeyError "hits")
     | inl e => inl e
     end,
     requested ++ [Zenodo.records_url env self params]).
Proof.
  unfold Zenodo._get_records, and_then.
  now destruct (SearchEnv.get_json env requested _) as [e|[hits|]].
Qed.

Lemma find_record_by_doi_run env self doi requested :
  let q1 := "conceptdoi:" +:+ replace_char "/" "*" doi in
  let q2 := "doi:" +:+ replace_char "/" "*" doi in
  let url1 := Zenodo.records_url env self [("q", q1)] in
  let url2 := Zenodo.records_url env self [("q", q2)] in
  Zenodo.find_record_by_doi env self doi requested
  = match SearchEnv.get_json env requested url1 with
    | inr (Hits (hit :: _)) => (inr (Record.mk BASE_URL hit), requested ++ [url1])
    | inr (Hits []) =>
        (match SearchEnv.get_json env (requested ++ [url1]) url2 with
         | inr (Hits (hit :: _)) => inr (Record.mk BASE_URL hit)
         | inr (Hits []) =>
             inl (LookupError
                    ("No records found with " +:+ Zenodo.str_params env q2))
         | inr NoHits => inl (KeyError "hits")
         | inl e => inl e
         end,
         requested ++ [url1; url2])
    | inr NoHits => (inl (KeyError "hits"), requested ++ [url1])
    | inl e => (inl e, requested ++ [url1])
    end.
Proof.
  intros q1 q2 url1 url2.
  unfold Zenodo.find_record_by_doi, M.bind at 1.
  rewrite get_records_run. fold q1. fold q2. fold url1.
  destruct (SearchEnv.get_json env requested url1) as [e|[[|hit hits]|]];
    try reflexivity.
  cbn [map]. unfold M.bind. rewrite get_records_run. fold url2.
  rewrite <- app_assoc. cbn [app].
  now destruct (SearchEnv.get_json env (requested ++ [url1]) url2)
    as [e|[[|hit hits]|]].
Qed.

(** X21: [find_record_by_doi] asks the registry once or twice, with the
    slashes of the DOI replaced in both queries.  The first search is for
    the concept DOI; the second, for the DOI itself, is made exactly when
    the first one answered with an empty list of hits, so not after an
    error.  A record that is returned is the first hit of the search that
    had hits and carries [BASE_URL], whatever the client's own base URL;
    when both searches have no hits the error is a [LookupError] that
    quotes the parameters of the second one. *)
Theorem find_record_by_doi_searches
    (env : SearchEnv.t) (self : Zenodo.t) (doi : string)
    (requested : list string) :
  let q1 := "conceptdoi:" +:+ replace_char "/" "*" doi in
  let q2 := "doi:" +:+ replace_char "/" "*" doi in
  let url1 := Zenodo.base_url self +:+ "records?"
              +:+ SearchEnv.urlencode env [("q", q1)] in
  let url2 := Zenodo.base_url self +:+ "records?"
              +:+ SearchEnv.urlencode env [("q", q2)] in
  let first := SearchEnv.get_json env requested url1 in
  let second := SearchEnv.get_json env (requested ++ [url1]) url2 in
  let out := Zenodo.find_record_by_doi env self doi requested in
  occurs "/" q1 = false
  /\ occurs "/" q2 = false
  /\ (snd out = requested ++ [url1] \/ snd out = requested ++ [url1; url2])
  /\ (snd out = requested ++ [url1; url2] <-> first = inr (Hits []))
  /\ (forall record,
        fst out = inr record ->
        Record.base_url record = BASE_URL
        /\ exists hits,
             first = inr (Hits (Record.data_files record :: hits))
             \/ (first = inr (Hits [])
                 /\ second = inr (Hits (Record.data_files record :: hits))))
  /\ (first = inr (Hits []) ->
      second = inr (Hits []) ->
      fst out
      = inl (LookupError
               ("No records found with {" +:+ SearchEnv.repr env "q" +:+ ": "
                  +:+ SearchEnv.repr env q2 +:+ "}"))).
Proof.
  intros q1 q2 url1 url2 first second out.
  assert (Hne : forall l : list string, l ++ [url1] <> l ++ [url1; url2]).
  { intros l Heq. apply app_inv_head in Heq. discriminate. }
  split; [apply (occurs_replace_char "/" "*" doi); discriminate|].
  split; [apply (occurs_replace_char "/" "*" doi); discriminate|].
  subst out. rewrite find_record_by_doi_run. cbv zeta.
  fold q1. fold q2.
  change (Zenodo.records_url env self [("q", q1)]) with url1.
  change (Zenodo.records_url env self [("q", q2)]) with url2.
  fold first. fold second.
  destruct first as [e|[[|hit hits]|]] eqn:Hfirst.
  - cbn [fst snd]. split; [now left|]. split.
    { split; [intros Heq; now apply Hne in Heq|discriminate]. }
    split; [intros record [=]|discriminate].
  - destruct second as [e|[[|hit hits]|]] eqn:Hsecond;
      cbn [fst snd];
      (split; [now right|]); (split; [tauto|]); split.
    + intros record [=].
    + discriminate.
    + intros record [=].
    + reflexivity.
    + intros record [= <-]. split; [reflexivity|]. exists hits. now right.
    + discriminate.
    + intros record [=].
    + discriminate.
  - cbn [fst snd]. split; [now left|]. split.
    { split; [intros Heq; now apply Hne in Heq|discriminate]. }
    split; [|discriminate].
    intros record [= <-]. split; [reflexivity|]. exists hits. now left.
  - cbn [fst snd]. split; [now left|]. split.
    { split; [intros Heq; now apply Hne in Heq|discriminate]. }
    split; [intros record [=]|discriminate].
Qed.

(** X22: [search] asks the registry exactly once, for the search string
    with every slash replaced by a space.  When it returns, the list is not
    empty, has one record per hit in the order of the hits, and every
    record carries [BASE_URL], whatever the client's own base URL; an empty
    list of hits raises a [LookupError] that quotes the replaced string. *)
Theorem search_asks_once_without_slash
    (env : SearchEnv.t) (self : Zenodo.t) (text : string)
    (requested : list string) :
  let q := replace_char "/" " " text in
  let url := Zenodo.base_url self +:+ "records?"
             +:+ SearchEnv.urlencode env [("q", q)] in
  let out := Zenodo.search env self text requested in
  occurs "/" q = false
  /\ snd out = requested ++ [url]
  /\ (forall recs,
        fst out = inr recs ->
        recs <> []
        /\ (forall record, record ∈ recs -> Record.base_url record = BASE_URL)
        /\ SearchEnv.get_json env requested url
           = inr (Hits (map Record.data_files recs)))
  /\ (SearchEnv.get_json env requested url = inr (Hits []) ->
      fst out = inl (LookupError ("No records found for search " +:+ q))).
Proof.
  intros q url out.
  split; [apply (occurs_replace_char "/" " " text); discriminate|].
  assert (Hrun :
    Zenodo.search env self text requested
    = match SearchEnv.get_json env requested url with
      | inr (Hits hits) =>
          (if bool_decide (map (Record.mk BASE_URL) hits = [])
           then inl (LookupError ("No records found for search " +:+ q))
           else inr (map (Record.mk BASE_URL) hits),
           requested ++ [url])
      | inr NoHits => (inl (KeyError "hits"), requested ++ [url])
      | inl e => (inl e, requested ++ [url])
      end).
  { unfold Zenodo.search, M.bind. rewrite get_records_run. fold q.
    change (Zenodo.records_url env self [("q", q)]) with url.
    destruct (SearchEnv.get_json env requested url) as [e|[hits|]];
      try reflexivity.
    now destruct (bool_decide (map (Record.mk BASE_URL) hits = [])). }
  subst out. rewrite Hrun. clear Hrun.
  destruct (SearchEnv.get_json env requested url) as [e|[hits|]] eqn:Hget;
    cbn [fst snd].
  - split; [reflexivity|]. split; [intros recs [=]|discriminate].
  - destruct (bool_decide (map (Record.mk BASE_URL) hits = [])) eqn:Hempty.
    + apply bool_decide_eq_true_1 in Hempty.
      destruct hits as [|hit hits]; [|discriminate].
      split; [reflexivity|]. split; [intros recs [=]|reflexivity].
    + apply bool_decide_eq_false_1 in Hempty.
      cbn [fst snd M.ret]. split; [reflexivity|]. split.
      * intros recs [= <-]. split; [exact Hempty|]. split.
        -- intros record Hin.
           change (map (Record.mk BASE_URL) hits)
             with (Record.mk BASE_URL <$> hits) in Hin.
           apply list_elem_of_fmap in Hin as (hit & -> & _). reflexivity.
        -- f_equal. f_equal. rewrite map_map. cbn [Record.data_files].
           now rewrite map_id.
      * intros [= ->]. now contradiction Hempty.
  - split; [reflexivity|]. split; [intros recs [=]|discriminate].
Qed.
